(** * chatserver: presence registry, call sessions and message relay

    A shallow embedding of the two Socket.IO handlers of the repository:

    - [SocketHandler]: the handler that keeps call sessions in memory
      ([activeUsers], [activeCallSessions], call ids synthesised from the
      two user ids and the clock);
    - [RoomSocketHandler]: the handler that keeps the call state in the
      [call_logs] table and only a [connectedUsers] registry in memory.

    Modelling choices, shared by both:

    - a JS [Map] is an insertion-ordered association list ([JsMap]):
      [set] overwrites in place or appends, [delete] removes the key,
      iteration follows insertion order;
    - user ids, message ids and clock readings are integers ([Z]); a
      [Date] is its millisecond count;
    - what a handler does to the outside world is recorded, in program
      order, as a list of [Effect]s: the queries it issues and the events
      it emits;
    - the answer of the database to each [await db.query(...)] and each
      clock reading are arguments of the handler: a query is either
      [Resolved] with its rows or [Rejected], and a rejection is thrown
      into the handler's [catch];
    - a handler runs from its first statement to its last without another
      handler in between: what a second handler could do while the first
      waits for the database is not modelled; [console.log] and
      [console.error] are left out. *)

From Stdlib Require Import ZArith String List Bool Lia DecimalString.
Import ListNotations.
Open Scope string_scope.
Open Scope Z_scope.

Set Implicit Arguments.

(** ** JS [Map] *)

Module JsMap.
Section WithKey.
Variables K V : Type.
Variable eqb : K -> K -> bool.

Definition t := list (K * V).

Fixpoint get (m : t) (k : K) : option V :=
  match m with
  | [] => None
  | (k', v) :: m' => if eqb k k' then Some v else get m' k
  end.

(** [m.set(k, v)]: an existing key keeps its place in the order. *)
Fixpoint set (m : t) (k : K) (v : V) : t :=
  match m with
  | [] => [(k, v)]
  | (k', v') :: m' =>
      if eqb k k' then (k, v) :: m' else (k', v') :: set m' k v
  end.

Definition delete (m : t) (k : K) : t :=
  filter (fun kv => negb (eqb k (fst kv))) m.

Definition entries (m : t) : list (K * V) := m.

Definition keys (m : t) : list K := map fst m.
End WithKey.
End JsMap.

(** ** Promises and the handler monad *)

(** How an awaited [db.query] settles. *)
Inductive Settled (A : Type) : Type :=
| Resolved (rows : A)
| Rejected.
Arguments Rejected {A}.

(** How a block of statements ends: it runs to its end (or to a
    [return]), or it throws. *)
Inductive Completion (A : Type) : Type :=
| Returned (a : A)
| Thrown.
Arguments Thrown {A}.

Section Monad.
Variables S E : Type.

Record Run (A : Type) : Type := mkRun {
  after : S;
  effects : list E;
  completion : Completion A
}.

Definition M (A : Type) : Type := S -> Run A.

Definition ret {A} (a : A) : M A :=
  fun s => mkRun s [] (Returned a).

Definition throw {A} : M A :=
  fun s => mkRun s [] Thrown.

Definition bind {A B} (c : M A) (k : A -> M B) : M B :=
  fun s =>
    let r := c s in
    match completion r with
    | Returned a =>
        let r' := k a (after r) in
        mkRun (after r') (effects r ++ effects r') (completion r')
    | Thrown => mkRun (after r) (effects r) Thrown
    end.

Definition gets {A} (f : S -> A) : M A :=
  fun s => mkRun s [] (Returned (f s)).

Definition modify (f : S -> S) : M unit :=
  fun s => mkRun (f s) [] (Returned tt).

Definition perform (e : E) : M unit :=
  fun s => mkRun s [e] (Returned tt).

(** [try { body } catch (error) { handler }]: what the body changed and
    emitted before it threw stays. *)
Definition try_catch (body handler : M unit) : M unit :=
  fun s =>
    let r := body s in
    match completion r with
    | Returned _ => r
    | Thrown =>
        let r' := handler (after r) in
        mkRun (after r') (effects r ++ effects r') (completion r')
    end.

(** [for (const x of xs) { body }] *)
Fixpoint for_each {A} (xs : list A) (body : A -> M unit) : M unit :=
  match xs with
  | [] => ret tt
  | x :: xs' => bind (body x) (fun _ => for_each xs' body)
  end.
End Monad.

Arguments ret {S E A} a.
Arguments throw {S E A}.
Arguments gets {S E A} f.
Arguments modify {S E} f.
Arguments perform {S E} e.

Declare Scope handler_scope.
Delimit Scope handler_scope with handler.
Notation "x <- c ;; k" := (bind c (fun x => k))
  (at level 61, c at next level, right associativity) : handler_scope.
Notation "c ;; k" := (bind c (fun _ => k))
  (at level 61, right associativity) : handler_scope.

(** A number inside a template literal. *)
Definition show (z : Z) : string := NilZero.string_of_int (Z.to_int z).

(** [x || 'text'] for an optional string: [undefined] and the empty
    string are falsy. *)
Definition or_text (x : option string) : string :=
  match x with
  | Some s => if String.eqb s "" then "text" else s
  | None => "text"
  end.

(** A connection: the socket object, with the id the transport gave it
    and the user id the authentication middleware stored on it. *)
Record Socket : Type := mkSocket {
  socket_id : string;
  socket_userId : Z
}.

(** ** The handler with in-memory call sessions *)

Module SocketHandler.

(** The value stored in [activeUsers]. *)
Record Presence : Type := mkPresence {
  socketId : string;
  socket : Socket;
  connectedAt : Z
}.

Inductive CallStatus : Type := ringing | active.

(** The object stored in [activeCallSessions]; [answeredAt] is
    [undefined] until the call is answered, [sdp] is [null]. *)
Record CallSession : Type := mkCallSession {
  callId : string;
  callerId : Z;
  receiverId : Z;
  callType : string;
  status : CallStatus;
  createdAt : Z;
  sdp : option string;
  answeredAt : option Z
}.

(** The module-level state. *)
Record Server : Type := mkServer {
  activeUsers : JsMap.t Z Presence;
  activeCallSessions : JsMap.t string CallSession
}.

Definition initial : Server := mkServer [] [].

(** The statements handed to [db.query], with their parameters. *)
Inductive Sql : Type :=
| UpdateUserOnline (userId : Z)
| UpdateUserOffline (userId : Z)
| InsertMessage (conversationId senderId : Z) (messageText messageType : string)
| SelectOtherParticipants (conversationId senderId : Z)
| SelectUser (userId : Z)
| InsertCallLog (callerId receiverId : Z) (callType call_status : string)
                (duration : Z).

(** The events sent to clients, each with its payload fields. *)
Inductive Event : Type :=
| user_status_changed (userId : Z) (status : string)
| connection_confirmed (userId : Z) (message : string)
| new_message (conversationId messageId senderId : Z)
              (messageText messageType : string) (created_at : Z)
              (is_read : bool)
| message_sent (messageId created_at : Z)
| error (message : string)
| incoming_call (callId : string) (callerId : Z) (callerName callType : string)
                (timestamp : Z)
| call_initiated (callId : string) (receiverId : Z) (callType status : string)
| call_error (message : string) (receiverId : Z)
| call_answered (callId : string) (receiverId : Z) (receiverName : string)
                (sdp : option string) (callType : string)
| call_connected (callId : string) (status : string)
| call_rejected (callId : string) (reason : string)
| call_ended (callId : string) (reason : string) (duration : option Z).

Inductive Effect : Type :=
| Query (q : Sql)                       (* db.query(q) was issued *)
| Emit (to : Socket) (e : Event)        (* to.emit(e) *)
| Broadcast (e : Event).                (* io.emit(e) *)

Definition Handler := M Server Effect.

Local Open Scope handler_scope.

(** *** Primitive statements *)

Definition emit (to : Socket) (e : Event) : Handler unit :=
  perform (Emit to e).

Definition io_emit (e : Event) : Handler unit :=
  perform (Broadcast e).

(** [await db.query(q)], the database answering [r]. *)
Definition query {A} (q : Sql) (r : Settled A) : Handler A :=
  perform (Query q) ;;
  match r with
  | Resolved rows => ret rows
  | Rejected => throw
  end.

Definition activeUsers_get (userId : Z) : Handler (option Presence) :=
  gets (fun s => JsMap.get Z.eqb (activeUsers s) userId).

Definition activeUsers_set (userId : Z) (p : Presence) : Handler unit :=
  modify (fun s =>
    mkServer (JsMap.set Z.eqb (activeUsers s) userId p) (activeCallSessions s)).

Definition activeUsers_delete (userId : Z) : Handler unit :=
  modify (fun s =>
    mkServer (JsMap.delete Z.eqb (activeUsers s) userId) (activeCallSessions s)).

Definition activeCallSessions_get (callId : string)
  : Handler (option CallSession) :=
  gets (fun s => JsMap.get String.eqb (activeCallSessions s) callId).

Definition activeCallSessions_set (callId : string) (c : CallSession)
  : Handler unit :=
  modify (fun s =>
    mkServer (activeUsers s) (JsMap.set String.eqb (activeCallSessions s) callId c)).

Definition activeCallSessions_delete (callId : string) : Handler unit :=
  modify (fun s =>
    mkServer (activeUsers s) (JsMap.delete String.eqb (activeCallSessions s) callId)).

Definition activeCallSessions_entries
  : Handler (list (string * CallSession)) :=
  gets (fun s => JsMap.entries (activeCallSessions s)).

(** [row.name] for [row = rows[0]]: a [TypeError] when no row came back. *)
Definition name_of (row : option string) : Handler string :=
  match row with
  | Some name => ret name
  | None => throw
  end.

(** *** socket.on('user_connected') *)

Definition user_connected_body (sock : Socket) (now : Z)
    (updated : Settled unit) : Handler unit :=
  let userId := socket_userId sock in
  activeUsers_set userId (mkPresence (socket_id sock) sock now) ;;
  query (UpdateUserOnline userId) updated ;;
  io_emit (user_status_changed userId "online") ;;
  emit sock (connection_confirmed userId "Successfully connected").

Definition user_connected (sock : Socket) (now : Z)
    (updated : Settled unit) : Handler unit :=
  try_catch (user_connected_body sock now updated) (ret tt).

(** *** socket.on('send_message') *)

Record SendMessage : Type := mkSendMessage {
  sm_conversationId : Z;
  sm_messageText : string;
  sm_messageType : option string
}.

(** [inserted] answers the INSERT with [(id, created_at)], [others]
    answers the participant query with the [user_id] column. *)
Definition send_message_body (sock : Socket) (data : SendMessage)
    (inserted : Settled (Z * Z)) (others : Settled (list Z))
  : Handler unit :=
  let conversationId := sm_conversationId data in
  let messageText := sm_messageText data in
  let messageType := sm_messageType data in
  let senderId := socket_userId sock in
  message <- query (InsertMessage conversationId senderId messageText
                                  (or_text messageType)) inserted ;;
  receiverResult <- query (SelectOtherParticipants conversationId senderId)
                          others ;;
  match receiverResult with
  | receiverId :: _ =>
      receiverUser <- activeUsers_get receiverId ;;
      match receiverUser with
      | Some p =>
          emit (socket p)
               (new_message conversationId (fst message) senderId messageText
                            (or_text messageType) (snd message) false)
      | None => ret tt
      end
  | [] => ret tt
  end ;;
  emit sock (message_sent (fst message) (snd message)).

Definition send_message (sock : Socket) (data : SendMessage)
    (inserted : Settled (Z * Z)) (others : Settled (list Z))
  : Handler unit :=
  try_catch (send_message_body sock data inserted others)
            (emit sock (error "Failed to send message")).

(** *** socket.on('initiate_call') *)

Record InitiateCall : Type := mkInitiateCall {
  ic_receiverId : Z;
  ic_callType : string
}.

(** [`${callerId}_${receiverId}_${Date.now()}`] *)
Definition make_callId (callerId receiverId now : Z) : string :=
  show callerId ++ "_" ++ show receiverId ++ "_" ++ show now.

(** [now] is the reading of [Date.now()], [created] and [stamped] those
    of the two [new Date()]; [callerRow] answers the caller query with
    the [name] of its first row, if any. *)
Definition initiate_call_body (sock : Socket) (data : InitiateCall)
    (now created stamped : Z) (callerRow : Settled (option string))
  : Handler unit :=
  let receiverId := ic_receiverId data in
  let callType := ic_callType data in
  let callerId := socket_userId sock in
  let callId := make_callId callerId receiverId now in
  caller <- query (SelectUser callerId) callerRow ;;
  activeCallSessions_set callId
    (mkCallSession callId callerId receiverId callType ringing created
                   None None) ;;
  receiverUser <- activeUsers_get receiverId ;;
  match receiverUser with
  | Some p =>
      callerName <- name_of caller ;;
      emit (socket p)
           (incoming_call callId callerId callerName callType stamped) ;;
      emit sock (call_initiated callId receiverId callType "ringing")
  | None =>
      emit sock (call_error "User is offline" receiverId) ;;
      activeCallSessions_delete callId
  end.

Definition initiate_call (sock : Socket) (data : InitiateCall)
    (now created stamped : Z) (callerRow : Settled (option string))
  : Handler unit :=
  try_catch (initiate_call_body sock data now created stamped callerRow)
            (emit sock (error "Failed to initiate call")).

(** *** socket.on('answer_call') *)

(** The payload; [sdp] is stored and passed on as it came, [None] when
    the request carries none. *)
Record AnswerCall : Type := mkAnswerCall {
  ac_callId : string;
  ac_sdp : option string
}.

(** The three assignments to [callSession]: the object is the one held
    by the map, so the entry changes in place. *)
Definition answered (c : CallSession) (sdp : option string) (now : Z)
  : CallSession :=
  mkCallSession (callId c) (callerId c) (receiverId c) (callType c)
                active (createdAt c) sdp (Some now).

Definition answer_call_body (sock : Socket) (data : AnswerCall) (now : Z)
    (receiverRow : Settled (option string)) : Handler unit :=
  let callId := ac_callId data in
  let sdp := ac_sdp data in
  let receiverId := socket_userId sock in
  callSession <- activeCallSessions_get callId ;;
  match callSession with
  | None => emit sock (error "Call not found")
  | Some c =>
      activeCallSessions_set callId (answered c sdp now) ;;
      receiver <- query (SelectUser receiverId) receiverRow ;;
      callerUser <- activeUsers_get (callerId c) ;;
      match callerUser with
      | Some p =>
          receiverName <- name_of receiver ;;
          emit (socket p)
               (call_answered callId receiverId receiverName sdp (callType c))
      | None => ret tt
      end ;;
      emit sock (call_connected callId "active")
  end.

Definition answer_call (sock : Socket) (data : AnswerCall) (now : Z)
    (receiverRow : Settled (option string)) : Handler unit :=
  try_catch (answer_call_body sock data now receiverRow)
            (emit sock (error "Failed to answer call")).

(** *** socket.on('reject_call') *)

Definition reject_call_body (sock : Socket) (callId : string) : Handler unit :=
  callSession <- activeCallSessions_get callId ;;
  match callSession with
  | None => ret tt
  | Some c =>
      callerUser <- activeUsers_get (callerId c) ;;
      match callerUser with
      | Some p => emit (socket p) (call_rejected callId "rejected")
      | None => ret tt
      end ;;
      activeCallSessions_delete callId
  end.

Definition reject_call (sock : Socket) (callId : string) : Handler unit :=
  try_catch (reject_call_body sock callId) (ret tt).

(** The other party of a session, as the handlers compute it. *)
Definition other_party (c : CallSession) (userId : Z) : Z :=
  if callerId c =? userId then receiverId c else callerId c.

(** *** socket.on('end_call') *)

(** [Math.floor((end - start) / 1000)] *)
Definition seconds_between (start finish : Z) : Z := (finish - start) / 1000.

Definition end_call_body (sock : Socket) (callId : string) (now : Z)
    (logged : Settled unit) : Handler unit :=
  let userId := socket_userId sock in
  callSession <- activeCallSessions_get callId ;;
  match callSession with
  | None => ret tt
  | Some c =>
      let otherUserId := other_party c userId in
      let duration := seconds_between (createdAt c) now in
      query (InsertCallLog (callerId c) (receiverId c) (callType c)
                           "completed" duration) logged ;;
      otherUser <- activeUsers_get otherUserId ;;
      match otherUser with
      | Some p =>
          emit (socket p) (call_ended callId "ended_by_user" (Some duration))
      | None => ret tt
      end ;;
      activeCallSessions_delete callId
  end.

Definition end_call (sock : Socket) (callId : string) (now : Z)
    (logged : Settled unit) : Handler unit :=
  try_catch (end_call_body sock callId now logged) (ret tt).

(** *** socket.on('disconnect') *)

Definition involves (userId : Z) (c : CallSession) : bool :=
  (callerId c =? userId) || (receiverId c =? userId).

(** The body of the loop over [activeCallSessions.entries()]. *)
Definition end_active_call (userId : Z) (entry : string * CallSession)
  : Handler unit :=
  let '(callId, c) := entry in
  if involves userId c then
    otherUser <- activeUsers_get (other_party c userId) ;;
    match otherUser with
    | Some p => emit (socket p) (call_ended callId "user_disconnected" None)
    | None => ret tt
    end ;;
    activeCallSessions_delete callId
  else ret tt.

(** The loop deletes no entry but the one it is visiting, so the live
    iterator of the map visits exactly the entries present when the
    loop starts, in insertion order. *)
Definition disconnect_body (sock : Socket) (updated : Settled unit)
  : Handler unit :=
  let userId := socket_userId sock in
  activeUsers_delete userId ;;
  query (UpdateUserOffline userId) updated ;;
  io_emit (user_status_changed userId "offline") ;;
  sessions <- activeCallSessions_entries ;;
  for_each sessions (end_active_call userId).

Definition disconnect (sock : Socket) (updated : Settled unit)
  : Handler unit :=
  try_catch (disconnect_body sock updated) (ret tt).

End SocketHandler.

(** ** The handler with call state in the [call_logs] table *)

Module RoomSocketHandler.

(** The module-level state: [connectedUsers], user id to socket id. *)
Record Server : Type := mkServer {
  connectedUsers : JsMap.t Z string
}.

Definition initial : Server := mkServer [].

Inductive Sql : Type :=
| UpdateUserOnline (userId : Z)
| UpdateUserOffline (userId : Z)
| InsertCallLog (callerId receiverId : Z) (callType call_status : string)
| SelectUser (userId : Z)
| UpdateCallStatus (call_status : string) (callId : Z)
| UpdateCallAnswered (callId : Z)
| SelectStartedAt (callId : Z)
| UpdateCallEnded (duration callId : Z).

Inductive Event : Type :=
| user_status (userId : Z) (isOnline : bool)
| incoming_call (callId callerId : Z) (callerName callerAvatar callType offer : string)
| call_failed (error : string)
| call_error (error : string)
| call_answered (callId : Z) (answer : string)
| call_rejected (callId : Z)
| call_ended (callId : Z).

Inductive Effect : Type :=
| Query (q : Sql)                          (* db.query(q) was issued *)
| Emit (to : Socket) (e : Event)           (* socket.emit(e) *)
| EmitTo (socketId : string) (e : Event)   (* io.to(socketId).emit(e) *)
| BroadcastFrom (from : Socket) (e : Event). (* socket.broadcast.emit(e) *)

Definition Handler := M Server Effect.

Local Open Scope handler_scope.

Definition query {A} (q : Sql) (r : Settled A) : Handler A :=
  perform (Query q) ;;
  match r with
  | Resolved rows => ret rows
  | Rejected => throw
  end.

Definition connectedUsers_get (userId : Z) : Handler (option string) :=
  gets (fun s => JsMap.get Z.eqb (connectedUsers s) userId).

Definition connectedUsers_set (userId : Z) (socketId : string) : Handler unit :=
  modify (fun s => mkServer (JsMap.set Z.eqb (connectedUsers s) userId socketId)).

Definition connectedUsers_delete (userId : Z) : Handler unit :=
  modify (fun s => mkServer (JsMap.delete Z.eqb (connectedUsers s) userId)).

(** [io.to(connectedUsers.get(userId)).emit(e)] when the user is there. *)
Definition emit_if_connected (userId : Z) (e : Event) : Handler unit :=
  socketId <- connectedUsers_get userId ;;
  match socketId with
  | Some sid => perform (EmitTo sid e)
  | None => ret tt
  end.

(** *** io.on('connection'), up to the registration of the handlers *)

Definition connection (sock : Socket) (updated : Settled unit) : Handler unit :=
  let userId := socket_userId sock in
  connectedUsers_set userId (socket_id sock) ;;
  query (UpdateUserOnline userId) updated ;;
  perform (BroadcastFrom sock (user_status userId true)).

(** *** socket.on('initiate_call') *)

Record InitiateCall : Type := mkInitiateCall {
  ic_receiverId : Z;
  ic_callType : string;
  ic_offer : string
}.

(** [inserted] answers the INSERT with the new [id], [callerRow] the
    user query with [(name, avatar_url)] of its first row, if any. *)
Definition initiate_call_body (sock : Socket) (data : InitiateCall)
    (inserted : Settled Z) (callerRow : Settled (option (string * string)))
    (missed : Settled unit) : Handler unit :=
  let userId := socket_userId sock in
  let receiverId := ic_receiverId data in
  let callType := ic_callType data in
  callId <- query (InsertCallLog userId receiverId callType "calling") inserted ;;
  caller <- query (SelectUser userId) callerRow ;;
  receiverSocketId <- connectedUsers_get receiverId ;;
  match receiverSocketId with
  | Some sid =>
      match caller with
      | Some (name, avatar_url) =>
          perform (EmitTo sid (incoming_call callId userId name avatar_url
                                             callType (ic_offer data)))
      | None => throw
      end
  | None =>
      perform (Emit sock (call_failed "User is offline")) ;;
      query (UpdateCallStatus "missed" callId) missed
  end.

Definition initiate_call (sock : Socket) (data : InitiateCall)
    (inserted : Settled Z) (callerRow : Settled (option (string * string)))
    (missed : Settled unit) : Handler unit :=
  try_catch (initiate_call_body sock data inserted callerRow missed)
            (perform (Emit sock (call_error "Failed to initiate call"))).

(** *** socket.on('answer_call') *)

Record AnswerCall : Type := mkAnswerCall {
  ac_callId : Z;
  ac_callerId : Z;
  ac_answer : string
}.

Definition answer_call_body (sock : Socket) (data : AnswerCall)
    (updated : Settled unit) : Handler unit :=
  query (UpdateCallAnswered (ac_callId data)) updated ;;
  emit_if_connected (ac_callerId data)
                    (call_answered (ac_callId data) (ac_answer data)).

Definition answer_call (sock : Socket) (data : AnswerCall)
    (updated : Settled unit) : Handler unit :=
  try_catch (answer_call_body sock data updated) (ret tt).

(** *** socket.on('end_call') *)

Record EndCall : Type := mkEndCall {
  ec_callId : Z;
  ec_receiverId : Z
}.

(** [Math.floor((endTime - startTime) / 1000)] *)
Definition seconds_between (start finish : Z) : Z := (finish - start) / 1000.

(** [rows.length > 0 && rows[0].started_at]: the [started_at] of the
    first row when there is one and the column is not NULL. *)
Definition started_at (rows : list (option Z)) : option Z :=
  match rows with
  | Some t :: _ => Some t
  | _ => None
  end.

(** [selected] answers the SELECT with the [started_at] column, [now] is
    the reading of [new Date()], [updated] answers whichever UPDATE
    follows. *)
Definition end_call_body (sock : Socket) (data : EndCall)
    (selected : Settled (list (option Z))) (now : Z)
    (updated : Settled unit) : Handler unit :=
  let callId := ec_callId data in
  callResult <- query (SelectStartedAt callId) selected ;;
  match started_at callResult with
  | Some startTime =>
      query (UpdateCallEnded (seconds_between startTime now) callId) updated
  | None =>
      query (UpdateCallStatus "missed" callId) updated
  end ;;
  emit_if_connected (ec_receiverId data) (call_ended callId) ;;
  perform (Emit sock (call_ended callId)).

Definition end_call (sock : Socket) (data : EndCall)
    (selected : Settled (list (option Z))) (now : Z)
    (updated : Settled unit) : Handler unit :=
  try_catch (end_call_body sock data selected now updated) (ret tt).

(** *** socket.on('disconnect') *)

Definition disconnect (sock : Socket) (updated : Settled unit) : Handler unit :=
  let userId := socket_userId sock in
  connectedUsers_delete userId ;;
  query (UpdateUserOffline userId) updated ;;
  perform (BroadcastFrom sock (user_status userId false)).

End RoomSocketHandler.

(** ** Auxiliary definitions *)

Import SocketHandler.
Local Open Scope handler_scope.

(** What the loop sends for one entry, given the registry it reads. *)
Definition disconnect_notice (users : JsMap.t Z Presence) (userId : Z)
    (entry : string * CallSession) : list Effect :=
  if involves userId (snd entry) then
    match JsMap.get Z.eqb users (other_party (snd entry) userId) with
    | Some p => [Emit (socket p) (call_ended (fst entry) "user_disconnected" None)]
    | None => []
    end
  else [].

(** What the loop leaves of the table. *)
Definition swept (userId : Z) (visited : list (string * CallSession))
    (sessions : JsMap.t string CallSession) : JsMap.t string CallSession :=
  fold_left
    (fun m entry =>
       if involves userId (snd entry) then JsMap.delete String.eqb m (fst entry)
       else m)
    visited sessions.

(** ** Scenarios *)

(** Two users, a bystander, and a second connection of the second user. *)
Definition ann : Socket := mkSocket "sock-a" 1.
Definition bob : Socket := mkSocket "sock-b" 2.
Definition carol : Socket := mkSocket "sock-c" 3.
Definition bob_again : Socket := mkSocket "sock-b2" 2.

Definition ok : Settled unit := Resolved tt.

(** [ann] and [bob] are online. *)
Definition online : Server :=
  after ((user_connected ann 10 ok ;; user_connected bob 20 ok) initial).

(** [ann] rings [bob]; the call id is ["1_2_1000"]. *)
Definition ring_bob : Handler unit :=
  initiate_call ann (mkInitiateCall 2 "video") 1000 1001 1002
                (Resolved (Some "Ann")).

Definition ringing_call : Server := after (ring_bob online).

(** [bob] answers ten seconds later. *)
Definition active_call : Server :=
  after (answer_call bob (mkAnswerCall "1_2_1000" (Some "X")) 11000
                     (Resolved (Some "Bob")) ringing_call).

(** [bob] connects, then connects again on a second socket. *)
Definition reconnected : Server :=
  after ((user_connected bob 10 ok ;; user_connected bob_again 20 ok) initial).

(** The queries among the effects of a run. *)
Definition queries (es : list Effect) : list Sql :=
  flat_map (fun e => match e with Query q => [q] | _ => [] end) es.

(** The events sent to clients among the effects of a run. *)
Definition events (es : list Effect) : list Event :=
  flat_map (fun e => match e with
                     | Query _ => []
                     | Emit _ ev => [ev]
                     | Broadcast ev => [ev]
                     end) es.

(** What [send_message] relays: [new_message] to the first of the other
    participants, when that one is in the registry. *)
Definition relayed (st : Server) (sock : Socket) (data : SendMessage)
    (message : Z * Z) (others : list Z) : list Effect :=
  match others with
  | receiverId :: _ =>
      match JsMap.get Z.eqb (activeUsers st) receiverId with
      | Some p =>
          [Emit (socket p)
                (new_message (sm_conversationId data) (fst message)
                             (socket_userId sock) (sm_messageText data)
                             (or_text (sm_messageType data)) (snd message) false)]
      | None => []
      end
  | [] => []
  end.

(** One event handled, from the first statement of its handler to the
    last. *)
Inductive step : Server -> Server -> Prop :=
| step_user_connected sock now updated st :
    step st (after (user_connected sock now updated st))
| step_send_message sock data inserted others st :
    step st (after (send_message sock data inserted others st))
| step_initiate_call sock data now created stamped callerRow st :
    step st (after (initiate_call sock data now created stamped callerRow st))
| step_answer_call sock data now receiverRow st :
    step st (after (answer_call sock data now receiverRow st))
| step_reject_call sock cid st :
    step st (after (reject_call sock cid st))
| step_end_call sock cid now logged st :
    step st (after (end_call sock cid now logged st))
| step_disconnect sock updated st :
    step st (after (disconnect sock updated st)).

(** The states the server can be in. *)
Inductive reachable : Server -> Prop :=
| reachable_initial : reachable initial
| reachable_step st st' : reachable st -> step st st' -> reachable st'.

(** Each map has one entry per key, and a session is stored under its own
    [callId]. *)
Definition well_keyed (st : Server) : Prop :=
  NoDup (JsMap.keys (activeUsers st))
  /\ NoDup (JsMap.keys (activeCallSessions st))
  /\ forall cid c, In (cid, c) (JsMap.entries (activeCallSessions st)) ->
                   callId c = cid.

(** Unfolds the statements of a handler down to the [Run] they compute. *)
Ltac run :=
  cbv [user_connected user_connected_body send_message send_message_body
       initiate_call initiate_call_body answer_call answer_call_body
       reject_call reject_call_body end_call end_call_body
       disconnect disconnect_body
       emit io_emit query name_of
       activeUsers_get activeUsers_set activeUsers_delete
       activeCallSessions_get activeCallSessions_set activeCallSessions_delete
       activeCallSessions_entries
       try_catch bind ret throw gets modify perform ok];
  cbn [after effects completion app activeUsers activeCallSessions].

(** The session [initiate_call] stores. *)
Definition rung (sock : Socket) (data : InitiateCall) (now created : Z)
  : CallSession :=
  mkCallSession (make_callId (socket_userId sock) (ic_receiverId data) now)
                (socket_userId sock) (ic_receiverId data) (ic_callType data)
                ringing created None None.

(** Whether a run has issued an INSERT into [call_logs]. *)
Definition writes_call_log (es : list Effect) : bool :=
  existsb (fun q => match q with
                    | InsertCallLog _ _ _ _ _ => true
                    | _ => false
                    end)
          (queries es).

(** [carol] rings [ann] while [ann] is ringing [bob]. *)
Definition two_calls : Server :=
  after (initiate_call carol (mkInitiateCall 1 "voice") 2000 2001 2002
                       (Resolved (Some "Carol")) ringing_call).

(** How many [new_message] events a run has sent. *)
Definition count_occ_new_message (es : list Effect) : nat :=
  length (filter (fun ev => match ev with
                            | new_message _ _ _ _ _ _ _ => true
                            | _ => false
                            end)
                 (events es)).

(** ** The ICE relay of [SocketHandler] *)

(** [targetUser.socket.emit('ice_candidate', {callId, candidate})], the
    one event this handler sends; the candidate is passed on as it came. *)
Inductive IceEffect : Type :=
| EmitIce (to : Socket) (callId candidate : string).

(** *** socket.on('ice_candidate') *)

Definition ice_candidate_body (sock : Socket) (callId candidate : string)
  : M Server IceEffect unit :=
  let userId := socket_userId sock in
  callSession <- gets (fun s => JsMap.get String.eqb (activeCallSessions s) callId) ;;
  match callSession with
  | None => ret tt
  | Some c =>
      let targetUserId := other_party c userId in
      targetUser <- gets (fun s => JsMap.get Z.eqb (activeUsers s) targetUserId) ;;
      match targetUser with
      | Some p => perform (EmitIce (socket p) callId candidate)
      | None => ret tt
      end
  end.

Definition ice_candidate (sock : Socket) (callId candidate : string)
  : M Server IceEffect unit :=
  try_catch (ice_candidate_body sock callId candidate) (ret tt).

(** ** Invariants of [SocketHandler] *)

(** A presence entry is stored under the user id of its socket, with the
    id of that socket. *)
Definition presence_authentic (userId : Z) (p : Presence) : Prop :=
  socket_userId (socket p) = userId /\ socketId p = socket_id (socket p).


(** ** The chat and relay handlers of [RoomSocketHandler] *)

Module RoomEvents.

(** [`conversation_${conversationId}`] *)
Definition room (conversationId : Z) : string :=
  "conversation_" ++ show conversationId.

(** [const { messageType = 'text' } = data]: the default stands in for
    [undefined] only. *)
Definition default_text (x : option string) : string :=
  match x with
  | Some s => s
  | None => "text"
  end.

(** A message text as the code sees it: the sequence of its UTF-16 code
    units, which is what [length] and [substring] count. *)
Definition Text : Type := list N.

(** The row the INSERT into [messages] returns. *)
Record MessageRow : Type := mkMessageRow {
  id : Z;
  conversation_id : Z;
  sender_id : Z;
  message_text : Text;
  message_type : string;
  is_read : bool;
  created_at : Z
}.

Inductive Sql : Type :=
| InsertMessage (conversationId userId : Z) (messageText : Text)
                (messageType : string)
| SelectUser (userId : Z)
| SelectParticipants (conversationId userId : Z)
| UpdateRead (messageIds : list Z) (conversationId : Z)
| UpdateCallStatus (call_status : string) (callId : Z).

Inductive Event : Type :=
| new_message (message : MessageRow) (sender_name sender_avatar : string)
| message_notification (conversationId senderId : Z) (senderName : string)
                       (messagePreview : Text)
| message_error (error : string)
| messages_read (conversationId : Z) (messageIds : list Z)
| user_typing (userId conversationId : Z)
| user_stop_typing (userId conversationId : Z)
| ice_candidate_from (senderId : Z) (candidate : string)
| call_rejected (callId : Z).

Inductive Effect : Type :=
| Query (q : Sql)                                 (* db.query(q) was issued *)
| Emit (to : Socket) (e : Event)                  (* socket.emit(e) *)
| EmitTo (socketId : string) (e : Event)          (* io.to(socketId).emit(e) *)
| ToRoom (name : string) (e : Event)              (* io.to(room).emit(e) *)
| ToRoomExcept (from : Socket) (name : string) (e : Event)
                                                  (* socket.to(room).emit(e) *)
| Join (sock : Socket) (name : string)            (* socket.join(room) *)
| Leave (sock : Socket) (name : string).          (* socket.leave(room) *)

Definition Handler := M RoomSocketHandler.Server Effect.

Local Open Scope handler_scope.

Definition query {A} (q : Sql) (r : Settled A) : Handler A :=
  perform (Query q) ;;
  match r with
  | Resolved rows => ret rows
  | Rejected => throw
  end.

Definition connectedUsers_get (userId : Z) : Handler (option string) :=
  gets (fun s => JsMap.get Z.eqb (RoomSocketHandler.connectedUsers s) userId).

(** [io.to(connectedUsers.get(userId)).emit(e)] when the user is there. *)
Definition emit_if_connected (userId : Z) (e : Event) : Handler unit :=
  socketId <- connectedUsers_get userId ;;
  match socketId with
  | Some sid => perform (EmitTo sid e)
  | None => ret tt
  end.

(** *** socket.on('join_conversation') and socket.on('leave_conversation') *)

Definition join_conversation (sock : Socket) (conversationId : Z) : Handler unit :=
  perform (Join sock (room conversationId)).

Definition leave_conversation (sock : Socket) (conversationId : Z) : Handler unit :=
  perform (Leave sock (room conversationId)).

(** *** socket.on('send_message') *)

Record SendMessage : Type := mkSendMessage {
  sm_conversationId : Z;
  sm_messageText : Text;
  sm_messageType : option string
}.

(** [messageText.substring(0, 50)]: the first 50 code units, or all of
    them when there are fewer. *)
Definition preview (messageText : Text) : Text :=
  firstn 50 messageText.

(** The callback of [participants.rows.forEach]. *)
Definition notify_participant (sock : Socket) (data : SendMessage)
    (senderName : string) (user_id : Z) : Handler unit :=
  emit_if_connected user_id
    (message_notification (sm_conversationId data) (socket_userId sock)
                          senderName (preview (sm_messageText data))).

(** [inserted] answers the INSERT with the new row, [senderRow] the user
    query with [(name, avatar_url)] of its first row, if any, and
    [participants] the participant query with its [user_id] column. *)
Definition send_message_body (sock : Socket) (data : SendMessage)
    (inserted : Settled MessageRow)
    (senderRow : Settled (option (string * string)))
    (participants : Settled (list Z)) : Handler unit :=
  let userId := socket_userId sock in
  let conversationId := sm_conversationId data in
  let messageText := sm_messageText data in
  let messageType := default_text (sm_messageType data) in
  message <- query (InsertMessage conversationId userId messageText messageType)
                   inserted ;;
  sender <- query (SelectUser userId) senderRow ;;
  match sender with
  | None => throw
  | Some (name, avatar_url) =>
      perform (ToRoom (room conversationId) (new_message message name avatar_url)) ;;
      rows <- query (SelectParticipants conversationId userId) participants ;;
      for_each rows (notify_participant sock data name)
  end.

Definition send_message (sock : Socket) (data : SendMessage)
    (inserted : Settled MessageRow)
    (senderRow : Settled (option (string * string)))
    (participants : Settled (list Z)) : Handler unit :=
  try_catch (send_message_body sock data inserted senderRow participants)
            (perform (Emit sock (message_error "Failed to send message"))).

(** *** socket.on('mark_as_read') *)

Definition mark_as_read_body (sock : Socket) (conversationId : Z)
    (messageIds : list Z) (updated : Settled unit) : Handler unit :=
  query (UpdateRead messageIds conversationId) updated ;;
  perform (ToRoomExcept sock (room conversationId)
                        (messages_read conversationId messageIds)).

Definition mark_as_read (sock : Socket) (conversationId : Z)
    (messageIds : list Z) (updated : Settled unit) : Handler unit :=
  try_catch (mark_as_read_body sock conversationId messageIds updated) (ret tt).

(** *** socket.on('typing_start') and socket.on('typing_stop') *)

Definition typing_start (sock : Socket) (conversationId : Z) : Handler unit :=
  perform (ToRoomExcept sock (room conversationId)
                        (user_typing (socket_userId sock) conversationId)).

Definition typing_stop (sock : Socket) (conversationId : Z) : Handler unit :=
  perform (ToRoomExcept sock (room conversationId)
                        (user_stop_typing (socket_userId sock) conversationId)).

(** *** socket.on('ice_candidate') *)

Definition ice_candidate (sock : Socket) (receiverId : Z) (candidate : string)
  : Handler unit :=
  emit_if_connected receiverId
    (ice_candidate_from (socket_userId sock) candidate).

(** *** socket.on('reject_call') *)

Definition reject_call_body (sock : Socket) (callId callerId : Z)
    (updated : Settled unit) : Handler unit :=
  query (UpdateCallStatus "rejected" callId) updated ;;
  emit_if_connected callerId (call_rejected callId).

Definition reject_call (sock : Socket) (callId callerId : Z)
    (updated : Settled unit) : Handler unit :=
  try_catch (reject_call_body sock callId callerId updated) (ret tt).

(** What the loop over the participant rows sends, given the registry it
    reads. *)
Definition notices (st : RoomSocketHandler.Server) (sock : Socket)
    (data : SendMessage) (senderName : string) (rows : list Z) : list Effect :=
  flat_map
    (fun user_id =>
       match JsMap.get Z.eqb (RoomSocketHandler.connectedUsers st) user_id with
       | Some sid =>
           [EmitTo sid (message_notification (sm_conversationId data)
                                             (socket_userId sock) senderName
                                             (preview (sm_messageText data)))]
       | None => []
       end)
    rows.

End RoomEvents.

(** Unfolds the statements of the further handlers. *)
Ltac run_more :=
  cbv [ice_candidate ice_candidate_body
       RoomEvents.join_conversation RoomEvents.leave_conversation
       RoomEvents.send_message RoomEvents.send_message_body
       RoomEvents.mark_as_read RoomEvents.mark_as_read_body
       RoomEvents.typing_start RoomEvents.typing_stop
       RoomEvents.ice_candidate RoomEvents.reject_call
       RoomEvents.reject_call_body RoomEvents.emit_if_connected
       RoomEvents.connectedUsers_get RoomEvents.query
       RoomSocketHandler.connection RoomSocketHandler.disconnect
       RoomSocketHandler.initiate_call RoomSocketHandler.initiate_call_body
       RoomSocketHandler.answer_call RoomSocketHandler.answer_call_body
       RoomSocketHandler.end_call RoomSocketHandler.end_call_body
       RoomSocketHandler.emit_if_connected RoomSocketHandler.query
       RoomSocketHandler.connectedUsers_get RoomSocketHandler.connectedUsers_set
       RoomSocketHandler.connectedUsers_delete
       try_catch bind ret throw gets modify perform ok];
  cbn [after effects completion app RoomSocketHandler.connectedUsers
       activeUsers activeCallSessions].

(** * Properties *)

(** ** The map operations *)

Section JsMapFacts.
Variables K V : Type.
Variable eqb : K -> K -> bool.
Hypothesis eqb_eq : forall a b, eqb a b = true <-> a = b.

Lemma key_eqb_refl (k : K) : eqb k k = true.
Proof. now apply eqb_eq. Qed.

Lemma key_eqb_neq (a b : K) : a <> b -> eqb a b = false.
Proof.
  intros Hne. destruct (eqb a b) eqn:E; [|reflexivity].
  apply eqb_eq in E. contradiction.
Qed.

Lemma In_delete (m : JsMap.t K V) (k k' : K) (v : V) :
  In (k', v) (JsMap.delete eqb m k) <-> In (k', v) m /\ k' <> k.
Proof.
  unfold JsMap.delete. rewrite filter_In. cbn [fst].
  split; intros [Hin Hk]; split; trivial.
  - intros ->. now rewrite key_eqb_refl in Hk.
  - rewrite key_eqb_neq; [reflexivity | congruence].
Qed.

Lemma get_In (m : JsMap.t K V) (k : K) (v : V) :
  JsMap.get eqb m k = Some v -> In (k, v) m.
Proof.
  induction m as [|[k' v'] m IH]; cbn [JsMap.get]; [discriminate|].
  destruct (eqb k k') eqn:E.
  - apply eqb_eq in E. intros [= ->]. subst. now left.
  - intros H. right. now apply IH.
Qed.

Lemma get_None_not_In (m : JsMap.t K V) (k : K) :
  JsMap.get eqb m k = None <-> forall v, ~ In (k, v) m.
Proof.
  induction m as [|[k' v'] m IH]; cbn [JsMap.get].
  - split; [intros _ v [] | reflexivity].
  - destruct (eqb k k') eqn:E.
    + apply eqb_eq in E. subst. split; [discriminate|].
      intros H. exfalso. apply (H v'). now left.
    + rewrite IH. split.
      * intros H v [[= <- _]|Hin]; [now rewrite key_eqb_refl in E | now apply (H v)].
      * intros H v Hin. apply (H v). now right.
Qed.

Lemma get_delete_same (m : JsMap.t K V) (k : K) :
  JsMap.get eqb (JsMap.delete eqb m k) k = None.
Proof.
  apply get_None_not_In. intros v Hin.
  apply In_delete in Hin. now destruct Hin.
Qed.

Lemma get_delete_other (m : JsMap.t K V) (k k' : K) :
  k' <> k -> JsMap.get eqb (JsMap.delete eqb m k) k' = JsMap.get eqb m k'.
Proof.
  intros Hne. unfold JsMap.delete.
  induction m as [|[k0 v0] m IH]; cbn [filter JsMap.get fst]; [reflexivity|].
  destruct (eqb k k0) eqn:E; cbn [negb JsMap.get].
  - apply eqb_eq in E. subst k0. now rewrite (key_eqb_neq Hne).
  - now rewrite IH.
Qed.

Lemma delete_absent (m : JsMap.t K V) (k : K) :
  JsMap.get eqb m k = None -> JsMap.delete eqb m k = m.
Proof.
  unfold JsMap.delete.
  induction m as [|[k0 v0] m IH]; cbn [filter JsMap.get fst]; [reflexivity|].
  destruct (eqb k k0); [discriminate|].
  intros H. cbn [negb]. now rewrite IH.
Qed.

Lemma get_set_same (m : JsMap.t K V) (k : K) (v : V) :
  JsMap.get eqb (JsMap.set eqb m k v) k = Some v.
Proof.
  induction m as [|[k0 v0] m IH]; cbn [JsMap.set JsMap.get].
  - now rewrite key_eqb_refl.
  - destruct (eqb k k0) eqn:E; cbn [JsMap.get].
    + now rewrite key_eqb_refl.
    + now rewrite E.
Qed.

Lemma get_set_other (m : JsMap.t K V) (k k' : K) (v : V) :
  k' <> k -> JsMap.get eqb (JsMap.set eqb m k v) k' = JsMap.get eqb m k'.
Proof.
  intros Hne.
  induction m as [|[k0 v0] m IH]; cbn [JsMap.set JsMap.get].
  - now rewrite (key_eqb_neq Hne).
  - destruct (eqb k k0) eqn:E; cbn [JsMap.get].
    + apply eqb_eq in E. subst k0. now rewrite (key_eqb_neq Hne).
    + now rewrite IH.
Qed.

(** A key occurs once: [set] and [delete] keep it so. *)
Lemma keys_set (m : JsMap.t K V) (k : K) (v : V) :
  forall k', In k' (JsMap.keys (JsMap.set eqb m k v)) <->
             k' = k \/ In k' (JsMap.keys m).
Proof.
  unfold JsMap.keys.
  induction m as [|[k0 v0] m IH]; intros k'; cbn [JsMap.set map fst In].
  - intuition.
  - destruct (eqb k k0) eqn:E; cbn [map fst In].
    + apply eqb_eq in E. subst k0. intuition.
    + rewrite IH. intuition.
Qed.

Lemma NoDup_keys_set (m : JsMap.t K V) (k : K) (v : V) :
  NoDup (JsMap.keys m) -> NoDup (JsMap.keys (JsMap.set eqb m k v)).
Proof.
  induction m as [|[k0 v0] m IH]; cbn [JsMap.set].
  - intros _. repeat constructor. intros [].
  - intros Hnd. inversion Hnd as [|? ? Hnotin Hnd']; subst.
    destruct (eqb k k0) eqn:E.
    + apply eqb_eq in E. subst k0. now constructor.
    + cbn [JsMap.keys map fst]. constructor; [|now apply IH].
      fold (JsMap.keys (JsMap.set eqb m k v)). rewrite keys_set.
      intros [->|Hin]; [now rewrite key_eqb_refl in E | contradiction].
Qed.

Lemma NoDup_keys_delete (m : JsMap.t K V) (k : K) :
  NoDup (JsMap.keys m) -> NoDup (JsMap.keys (JsMap.delete eqb m k)).
Proof.
  unfold JsMap.keys, JsMap.delete.
  induction m as [|[k0 v0] m IH]; cbn [filter map fst]; [trivial|].
  intros Hnd. inversion Hnd as [|? ? Hnotin Hnd']; subst.
  destruct (eqb k k0); cbn [negb map fst]; [now apply IH|].
  constructor; [|now apply IH].
  rewrite in_map_iff. intros [[k1 v1] [Hk Hin]]. cbn [fst] in Hk. subst k1.
  apply filter_In in Hin. apply Hnotin.
  apply in_map_iff. exists (k0, v1). now split; [|apply Hin].
Qed.
End JsMapFacts.

(** ** The disconnect loop of [SocketHandler] *)

Lemma end_active_call_run (userId : Z) (entry : string * CallSession)
    (users : JsMap.t Z Presence) (sessions : JsMap.t string CallSession) :
  end_active_call userId entry (mkServer users sessions) =
  mkRun (mkServer users (swept userId [entry] sessions))
        (disconnect_notice users userId entry)
        (Returned tt).
Proof.
  destruct entry as [cid c].
  unfold swept, disconnect_notice, end_active_call. cbn [fold_left fst snd].
  destruct (involves userId c); [|reflexivity].
  run. now destruct (JsMap.get Z.eqb users (other_party c userId)).
Qed.

Lemma for_each_end_active_call (userId : Z) (visited : list (string * CallSession)) :
  forall users sessions,
    for_each visited (end_active_call userId) (mkServer users sessions) =
    mkRun (mkServer users (swept userId visited sessions))
          (flat_map (disconnect_notice users userId) visited)
          (Returned tt).
Proof.
  induction visited as [|entry visited IH]; intros users sessions.
  - reflexivity.
  - cbn [for_each]. unfold bind. rewrite end_active_call_run.
    cbn [after effects completion]. rewrite IH. reflexivity.
Qed.

Lemma In_swept (userId : Z) (visited : list (string * CallSession)) :
  forall sessions cid c,
    In (cid, c) (swept userId visited sessions) ->
    In (cid, c) sessions /\
    forall c', In (cid, c') visited -> involves userId c' = false.
Proof.
  induction visited as [|[k e] visited IH]; intros sessions cid c; cbn [swept fold_left].
  - intros H. split; [exact H | intros c' []].
  - cbn [fst snd]. fold (swept userId visited).
    destruct (involves userId e) eqn:E; intros H; apply IH in H;
      destruct H as [Hin Hrest].
    + apply (In_delete String.eqb String.eqb_eq) in Hin.
      destruct Hin as [Hin Hne]. split; [exact Hin|].
      intros c' [[= -> ->]|Hc']; [congruence | now apply Hrest].
    + split; [exact Hin|].
      intros c' [[= -> ->]|Hc']; [exact E | now apply Hrest].
Qed.

Lemma get_swept_absent (userId : Z) (visited : list (string * CallSession)) :
  forall sessions cid,
    JsMap.get String.eqb sessions cid = None ->
    JsMap.get String.eqb (swept userId visited sessions) cid = None.
Proof.
  intros sessions cid Hnone.
  apply (get_None_not_In String.eqb String.eqb_eq). intros v Hin.
  apply In_swept in Hin. destruct Hin as [Hin _].
  destruct (get_None_not_In String.eqb String.eqb_eq sessions cid) as [Habsent _].
  now apply (Habsent Hnone v).
Qed.

Lemma get_swept_involved (userId : Z) (visited : list (string * CallSession)) :
  forall sessions cid c,
    In (cid, c) visited -> involves userId c = true ->
    JsMap.get String.eqb (swept userId visited sessions) cid = None.
Proof.
  induction visited as [|[k e] visited IH]; intros sessions cid c; [intros []|].
  intros [[= -> ->]|Hin] Hinv; cbn [swept fold_left fst snd];
    fold (swept userId visited).
  - rewrite Hinv. apply get_swept_absent.
    apply (get_delete_same String.eqb String.eqb_eq).
  - now apply IH with (c := c).
Qed.

Lemma queries_disconnect_notice (users : JsMap.t Z Presence) (userId : Z)
    (visited : list (string * CallSession)) :
  queries (flat_map (disconnect_notice users userId) visited) = [].
Proof.
  unfold queries.
  induction visited as [|e l IH]; [reflexivity|].
  cbn [flat_map]. rewrite flat_map_app, IH, app_nil_r.
  unfold disconnect_notice.
  destruct (involves userId (snd e)); [|reflexivity].
  now destruct (JsMap.get Z.eqb _ _).
Qed.

(** The run of [disconnect] in closed form, for either answer of the
    database. *)
Lemma disconnect_resolved (sock : Socket) (st : Server) :
  let userId := socket_userId sock in
  let users := JsMap.delete Z.eqb (activeUsers st) userId in
  disconnect sock (Resolved tt) st =
  mkRun (mkServer users
                  (swept userId (activeCallSessions st) (activeCallSessions st)))
        (Query (UpdateUserOffline userId)
         :: Broadcast (user_status_changed userId "offline")
         :: flat_map (disconnect_notice users userId) (activeCallSessions st))
        (Returned tt).
Proof.
  destruct st as [users sessions]. run. unfold JsMap.entries.
  rewrite for_each_end_active_call. reflexivity.
Qed.

Lemma disconnect_rejected (sock : Socket) (st : Server) :
  let userId := socket_userId sock in
  disconnect sock Rejected st =
  mkRun (mkServer (JsMap.delete Z.eqb (activeUsers st) userId)
                  (activeCallSessions st))
        [Query (UpdateUserOffline userId)]
        (Returned tt).
Proof. reflexivity. Qed.

(** ** Presence registry *)




(** ** The runs of the call handlers in closed form *)

(** What [reject_call] and [end_call] send to the other side. *)
Lemma reject_call_absent (sock : Socket) (cid : string) (st : Server) :
  JsMap.get String.eqb (activeCallSessions st) cid = None ->
  reject_call sock cid st = mkRun st [] (Returned tt).
Proof. intros H. run. now rewrite H. Qed.

Lemma reject_call_present (sock : Socket) (cid : string) (st : Server)
    (c : CallSession) :
  JsMap.get String.eqb (activeCallSessions st) cid = Some c ->
  reject_call sock cid st =
  mkRun (mkServer (activeUsers st)
                  (JsMap.delete String.eqb (activeCallSessions st) cid))
        match JsMap.get Z.eqb (activeUsers st) (callerId c) with
        | Some p => [Emit (socket p) (call_rejected cid "rejected")]
        | None => []
        end
        (Returned tt).
Proof.
  intros H. run. rewrite H. run.
  now destruct (JsMap.get Z.eqb (activeUsers st) (callerId c)).
Qed.

Lemma end_call_absent (sock : Socket) (cid : string) (now : Z)
    (logged : Settled unit) (st : Server) :
  JsMap.get String.eqb (activeCallSessions st) cid = None ->
  end_call sock cid now logged st = mkRun st [] (Returned tt).
Proof. intros H. run. now rewrite H. Qed.

Lemma end_call_present (sock : Socket) (cid : string) (now : Z) (st : Server)
    (c : CallSession) :
  JsMap.get String.eqb (activeCallSessions st) cid = Some c ->
  let duration := seconds_between (createdAt c) now in
  let log := Query (InsertCallLog (callerId c) (receiverId c) (callType c)
                                  "completed" duration) in
  end_call sock cid now ok st =
  mkRun (mkServer (activeUsers st)
                  (JsMap.delete String.eqb (activeCallSessions st) cid))
        (log ::
         match JsMap.get Z.eqb (activeUsers st)
                         (other_party c (socket_userId sock)) with
         | Some p => [Emit (socket p)
                           (call_ended cid "ended_by_user" (Some duration))]
         | None => []
         end)
        (Returned tt)
  /\ end_call sock cid now Rejected st = mkRun st [log] (Returned tt)
  /\ completion (end_call_body sock cid now Rejected st) = Thrown.
Proof.
  intros H. destruct st as [users sessions]. cbn [activeCallSessions] in H.
  run. rewrite H. run.
  destruct (JsMap.get Z.eqb users _); now repeat split.
Qed.

Lemma answer_call_absent (sock : Socket) (data : AnswerCall) (now : Z)
    (receiverRow : Settled (option string)) (st : Server) :
  JsMap.get String.eqb (activeCallSessions st) (ac_callId data) = None ->
  answer_call sock data now receiverRow st =
  mkRun st [Emit sock (error "Call not found")] (Returned tt).
Proof. intros H. run. now rewrite H. Qed.

Lemma answer_call_present (sock : Socket) (data : AnswerCall) (now : Z)
    (receiverRow : Settled (option string)) (st : Server) (c : CallSession) :
  JsMap.get String.eqb (activeCallSessions st) (ac_callId data) = Some c ->
  after (answer_call sock data now receiverRow st) =
  mkServer (activeUsers st)
           (JsMap.set String.eqb (activeCallSessions st) (ac_callId data)
                      (answered c (ac_sdp data) now)).
Proof.
  intros H. run. rewrite H. run.
  destruct receiverRow as [[name|]|]; run;
    destruct (JsMap.get Z.eqb (activeUsers st) (callerId c)); reflexivity.
Qed.

(** ** Ending a call *)

(** C2 at two inputs. A call that is still ringing 5.499 seconds after its
    creation is ended by the caller: the record written is a ['completed']
    call of 5 seconds, not a missed call without duration. A call created
    at 1001, answered at 11000 and ended at 48000, that is after 37 seconds
    of conversation, is recorded with 46 seconds: the time is counted from
    [createdAt], and [answeredAt] is never read. *)
Theorem end_call_records_completed_since_creation :
  (JsMap.get String.eqb (activeCallSessions ringing_call) "1_2_1000" =
     Some (mkCallSession "1_2_1000" 1 2 "video" ringing 1001 None None)
   /\ effects (end_call ann "1_2_1000" 6500 ok ringing_call) =
      [Query (InsertCallLog 1 2 "video" "completed" 5);
       Emit bob (call_ended "1_2_1000" "ended_by_user" (Some 5))])
  /\ (JsMap.get String.eqb (activeCallSessions active_call) "1_2_1000" =
        Some (mkCallSession "1_2_1000" 1 2 "video" active 1001 (Some "X")
                            (Some 11000))
      /\ effects (end_call ann "1_2_1000" 48000 ok active_call) =
         [Query (InsertCallLog 1 2 "video" "completed" 46);
          Emit bob (call_ended "1_2_1000" "ended_by_user" (Some 46))]).
Proof. repeat split; reflexivity. Qed.

(** The same holds of every session: whatever its status and its
    [answeredAt], [end_call] writes ['completed'] with the seconds since
    [createdAt]. *)
Lemma end_call_ignores_status (sock : Socket) (cid : string) (now : Z)
    (logged : Settled unit) (st : Server) (c : CallSession) :
  JsMap.get String.eqb (activeCallSessions st) cid = Some c ->
  queries (effects (end_call sock cid now logged st)) =
  [InsertCallLog (callerId c) (receiverId c) (callType c) "completed"
                 (seconds_between (createdAt c) now)].
Proof.
  intros H. destruct (@end_call_present sock cid now st c H) as (Hok & Hrej & _).
  destruct logged as [[]|].
  - fold ok. rewrite Hok. cbn [effects queries flat_map app].
    now destruct (JsMap.get Z.eqb (activeUsers st) _).
  - now rewrite Hrej.
Qed.

(** The handler that keeps the call in [call_logs] does tell the two
    cases apart: with a [started_at] it writes ['ended'] and the seconds
    since then, without one it writes ['missed'] and no duration. *)
Lemma room_end_call_tells_missed_from_ended (sock : Socket)
    (data : RoomSocketHandler.EndCall) (rows : list (option Z)) (now : Z)
    (updated : Settled unit) (st : RoomSocketHandler.Server) :
  exists rest,
    effects (RoomSocketHandler.end_call sock data (Resolved rows) now updated st) =
    RoomSocketHandler.Query
      (RoomSocketHandler.SelectStartedAt (RoomSocketHandler.ec_callId data))
    :: RoomSocketHandler.Query
         match RoomSocketHandler.started_at rows with
         | Some startTime =>
             RoomSocketHandler.UpdateCallEnded
               (RoomSocketHandler.seconds_between startTime now)
               (RoomSocketHandler.ec_callId data)
         | None =>
             RoomSocketHandler.UpdateCallStatus
               "missed" (RoomSocketHandler.ec_callId data)
         end
    :: rest.
Proof.
  cbv [RoomSocketHandler.end_call RoomSocketHandler.end_call_body
       RoomSocketHandler.query RoomSocketHandler.emit_if_connected
       RoomSocketHandler.connectedUsers_get
       try_catch bind ret throw gets perform].
  cbn [after effects completion app].
  destruct (RoomSocketHandler.started_at rows); destruct updated as [[]|];
    cbn [after effects completion app]; try (eexists; reflexivity);
    destruct (JsMap.get Z.eqb _ _); cbn [after effects completion app];
    eexists; reflexivity.
Qed.

Example room_end_call_37_seconds :
  effects (RoomSocketHandler.end_call ann (RoomSocketHandler.mkEndCall 5 2)
             (Resolved [Some 11000]) 48000 ok RoomSocketHandler.initial) =
  [RoomSocketHandler.Query (RoomSocketHandler.SelectStartedAt 5);
   RoomSocketHandler.Query (RoomSocketHandler.UpdateCallEnded 37 5);
   RoomSocketHandler.Emit ann (RoomSocketHandler.call_ended 5)].
Proof. reflexivity. Qed.

(** ** Calling a user who is offline *)

(** C3 at the input where [ann] places a video call to user 3, who is not
    in the registry: [ann] is told [call_error], no session stays in the
    table, and the only query issued is the lookup of the caller; no
    record of the call, missed or other, is written. *)
Theorem initiate_call_offline_writes_no_record :
  let r := initiate_call ann (mkInitiateCall 3 "video") 1000 1001 1002
                         (Resolved (Some "Ann")) online in
  JsMap.get Z.eqb (activeUsers online) 3 = None
  /\ effects r = [Query (SelectUser 1);
                  Emit ann (call_error "User is offline" 3)]
  /\ queries (effects r) = [SelectUser 1]
  /\ activeCallSessions (after r) = []
  /\ completion r = Returned tt.
Proof. repeat split; reflexivity. Qed.

(** It is so for every caller and every absent receiver. *)
Lemma initiate_call_offline (sock : Socket) (data : InitiateCall)
    (now created stamped : Z) (callerRow : option string) (st : Server) :
  JsMap.get Z.eqb (activeUsers st) (ic_receiverId data) = None ->
  let r := initiate_call sock data now created stamped (Resolved callerRow) st in
  effects r = [Query (SelectUser (socket_userId sock));
               Emit sock (call_error "User is offline" (ic_receiverId data))]
  /\ JsMap.get String.eqb (activeCallSessions (after r))
               (make_callId (socket_userId sock) (ic_receiverId data) now) = None.
Proof.
  intros H. destruct st as [users sessions]. cbn [activeUsers] in H.
  run. rewrite H. run. split; [reflexivity|].
  apply (get_delete_same String.eqb String.eqb_eq).
Qed.

(** The handler that keeps the call in [call_logs] does write the missed
    call: the row inserted as ['calling'] is updated to ['missed']. *)
Lemma room_initiate_call_offline_writes_missed (sock : Socket)
    (data : RoomSocketHandler.InitiateCall) (id : Z)
    (callerRow : option (string * string)) (missed : Settled unit)
    (st : RoomSocketHandler.Server) :
  JsMap.get Z.eqb (RoomSocketHandler.connectedUsers st)
            (RoomSocketHandler.ic_receiverId data) = None ->
  exists rest,
    effects (RoomSocketHandler.initiate_call sock data (Resolved id)
               (Resolved callerRow) missed st) =
    ([RoomSocketHandler.Query
       (RoomSocketHandler.InsertCallLog (socket_userId sock)
          (RoomSocketHandler.ic_receiverId data)
          (RoomSocketHandler.ic_callType data) "calling");
     RoomSocketHandler.Query (RoomSocketHandler.SelectUser (socket_userId sock));
     RoomSocketHandler.Emit sock (RoomSocketHandler.call_failed "User is offline");
     RoomSocketHandler.Query (RoomSocketHandler.UpdateCallStatus "missed" id)]
     ++ rest)%list.
Proof.
  intros H.
  cbv [RoomSocketHandler.initiate_call RoomSocketHandler.initiate_call_body
       RoomSocketHandler.query RoomSocketHandler.connectedUsers_get
       try_catch bind ret throw gets perform].
  cbn [after effects completion app]. rewrite H.
  destruct missed as [[]|]; cbn [after effects completion app];
    eexists; reflexivity.
Qed.

(** ** Disconnect and the call sessions *)

(** C4, as stated, fails: [bob] disconnects during his active call with
    [ann]. The session is taken out of the table and [ann] is told
    [call_ended], with the reason ['user_disconnected'] and no duration;
    the only query is the status update of [bob], so no record of the
    call is written. With the call still ringing the run is the same. *)
Lemma disconnect_ends_calls_without_record :
  JsMap.get String.eqb (activeCallSessions active_call) "1_2_1000" =
    Some (mkCallSession "1_2_1000" 1 2 "video" active 1001 (Some "X") (Some 11000))
  /\ disconnect bob ok active_call =
     mkRun (mkServer (JsMap.delete Z.eqb (activeUsers online) 2) [])
           [Query (UpdateUserOffline 2);
            Broadcast (user_status_changed 2 "offline");
            Emit ann (call_ended "1_2_1000" "user_disconnected" None)]
           (Returned tt)
  /\ disconnect bob ok ringing_call = disconnect bob ok active_call.
Proof. repeat split; reflexivity. Qed.

(** C4, amended: when the status update of the disconnecting user is
    persisted, every session in which the user is caller or receiver,
    ringing or active alike, is out of the table when the handler returns;
    the counterpart, that is the receiver when the user is the caller and
    the caller otherwise, is sent
    [call_ended{callId, reason: 'user_disconnected'}] on the registered
    socket if in the registry; and the handler issues no query but that
    status update, so no outcome is recorded. *)
Theorem disconnect_removes_and_notifies (sock : Socket) (st : Server)
    (cid : string) (c : CallSession) :
  let userId := socket_userId sock in
  let r := disconnect sock ok st in
  In (cid, c) (JsMap.entries (activeCallSessions st)) ->
  callerId c = userId \/ receiverId c = userId ->
  JsMap.get String.eqb (activeCallSessions (after r)) cid = None
  /\ (forall p,
         JsMap.get Z.eqb (activeUsers (after r))
                   (if callerId c =? userId then receiverId c else callerId c) =
           Some p ->
         In (Emit (socket p) (call_ended cid "user_disconnected" None))
            (effects r))
  /\ queries (effects r) = [UpdateUserOffline userId].
Proof.
  intros userId r Hin Hpart. subst r. unfold ok. rewrite disconnect_resolved.
  fold userId. cbn [after effects activeUsers activeCallSessions].
  assert (Hinv : involves userId c = true).
  { unfold involves. apply orb_true_iff.
    destruct Hpart as [H|H]; [left|right]; now apply Z.eqb_eq. }
  split; [|split].
  - now apply get_swept_involved with (c := c).
  - intros p Hp. right. right. apply in_flat_map. exists (cid, c).
    split; [exact Hin|]. unfold disconnect_notice, other_party. cbn [fst snd].
    rewrite Hinv, Hp. now left.
  - cbn [queries flat_map app]. f_equal. apply queries_disconnect_notice.
Qed.

(** The amended C4 in the scenario of the active call, for either side:
    when [bob], the receiver, disconnects, [ann] is told, and when [ann],
    the caller, disconnects, [bob] is told. *)
Lemma disconnect_removes_and_notifies_witness :
  (JsMap.get String.eqb
     (activeCallSessions (after (disconnect bob ok active_call))) "1_2_1000" = None
   /\ In (Emit ann (call_ended "1_2_1000" "user_disconnected" None))
         (effects (disconnect bob ok active_call))
   /\ queries (effects (disconnect bob ok active_call)) = [UpdateUserOffline 2])
  /\ In (Emit bob (call_ended "1_2_1000" "user_disconnected" None))
        (effects (disconnect ann ok active_call)).
Proof.
  split.
  - destruct (@disconnect_removes_and_notifies bob active_call "1_2_1000"
                (mkCallSession "1_2_1000" 1 2 "video" active 1001 (Some "X")
                               (Some 11000)))
      as (Hgone & Hsent & Hq).
    + left. reflexivity.
    + right. reflexivity.
    + split; [exact Hgone|]. split; [|exact Hq].
      apply (Hsent (mkPresence "sock-a" ann 10)). reflexivity.
  - destruct (@disconnect_removes_and_notifies ann active_call "1_2_1000"
                (mkCallSession "1_2_1000" 1 2 "video" active 1001 (Some "X")
                               (Some 11000)))
      as (_ & Hsent & _).
    + left. reflexivity.
    + left. reflexivity.
    + apply (Hsent (mkPresence "sock-b" bob 20)). reflexivity.
Defined.

(** C5, as stated, fails: [bob] disconnects while [ann] is ringing him and
    the status update is rejected. The rejection is thrown before the loop
    over the sessions, the [catch] only logs it, and the handler returns
    with the session of [bob] still in the table. *)
Lemma disconnect_rejected_keeps_sessions :
  let r := disconnect bob Rejected ringing_call in
  completion r = Returned tt
  /\ JsMap.get Z.eqb (activeUsers (after r)) 2 = None
  /\ JsMap.entries (activeCallSessions (after r)) =
     [("1_2_1000", mkCallSession "1_2_1000" 1 2 "video" ringing 1001 None None)].
Proof. repeat split; reflexivity. Qed.

(** C5, amended: for every state of the table and every user, after a
    disconnect handler whose status update was persisted, no session in the
    table has the user as caller or as receiver. *)
Theorem disconnect_cleanup_exhaustive (sock : Socket) (st : Server)
    (cid : string) (c : CallSession) :
  In (cid, c) (JsMap.entries (activeCallSessions (after (disconnect sock ok st)))) ->
  callerId c <> socket_userId sock /\ receiverId c <> socket_userId sock.
Proof.
  unfold ok. rewrite disconnect_resolved.
  cbn [after activeCallSessions]. unfold JsMap.entries. intros Hin.
  apply In_swept in Hin. destruct Hin as [Hin Hclean].
  specialize (Hclean c Hin). unfold involves in Hclean.
  apply orb_false_iff in Hclean. destruct Hclean as [Hc Hr].
  now apply Z.eqb_neq in Hc, Hr.
Qed.

(** The amended C5 where [ann] has two calls, one to [bob] and one to
    [carol]'s user id, and [bob] disconnects: the session that stays is
    not his. *)
Lemma disconnect_cleanup_exhaustive_witness :
  let st := mkServer (activeUsers online)
              [("1_2_1000", mkCallSession "1_2_1000" 1 2 "video" ringing 1001 None None);
               ("1_3_2000", mkCallSession "1_3_2000" 1 3 "voice" ringing 2001 None None)] in
  let c := mkCallSession "1_3_2000" 1 3 "voice" ringing 2001 None None in
  In ("1_3_2000", c)
     (JsMap.entries (activeCallSessions (after (disconnect bob ok st))))
  /\ callerId c <> 2 /\ receiverId c <> 2.
Proof.
  intros st c.
  assert (Hin : In ("1_3_2000", c)
                   (JsMap.entries (activeCallSessions (after (disconnect bob ok st))))).
  { left. reflexivity. }
  split; [exact Hin|].
  exact (@disconnect_cleanup_exhaustive bob st "1_3_2000" c Hin).
Defined.

(** ** Answering a call *)

(** C6, as stated, fails: [bob] answers a second time, with another sdp,
    the call that is already active. No error is sent; [ann] is sent
    [call_answered] again and the session takes the new sdp and a new
    [answeredAt]. *)
Lemma answer_call_on_active_session_overwrites :
  let r := answer_call bob (mkAnswerCall "1_2_1000" (Some "Y")) 20000
                       (Resolved (Some "Bob")) active_call in
  option_map status
    (JsMap.get String.eqb (activeCallSessions active_call) "1_2_1000") = Some active
  /\ effects r = [Query (SelectUser 2);
                  Emit ann (call_answered "1_2_1000" 2 "Bob" (Some "Y") "video");
                  Emit bob (call_connected "1_2_1000" "active")]
  /\ JsMap.get String.eqb (activeCallSessions (after r)) "1_2_1000" =
     Some (mkCallSession "1_2_1000" 1 2 "video" active 1001 (Some "Y") (Some 20000))
  /\ after r <> active_call.
Proof. repeat split; try reflexivity. discriminate. Qed.

(** C6, amended: [answer_call] requires that the session exists, and
    nothing of its state. For an absent session the sender is sent [error]
    with the message ['Call not found'] and nothing changes. A session that
    exists, ringing or already active, is afterwards the session with the
    same call id, caller, receiver, call type and [createdAt], with status
    active, the sdp of the request as [sdp] and the time of the request as
    [answeredAt], whatever the database answers afterwards; the registry is
    untouched. *)
Theorem answer_call_requires_existence_only (sock : Socket) (data : AnswerCall)
    (now : Z) (receiverRow : Settled (option string)) (st : Server) :
  let r := answer_call sock data now receiverRow st in
  match JsMap.get String.eqb (activeCallSessions st) (ac_callId data) with
  | None => r = mkRun st [Emit sock (error "Call not found")] (Returned tt)
  | Some c =>
      JsMap.get String.eqb (activeCallSessions (after r)) (ac_callId data) =
        Some (mkCallSession (callId c) (callerId c) (receiverId c) (callType c)
                            active (createdAt c) (ac_sdp data) (Some now))
      /\ activeUsers (after r) = activeUsers st
  end.
Proof.
  intros r. subst r.
  destruct (JsMap.get String.eqb (activeCallSessions st) (ac_callId data))
    as [c|] eqn:H.
  - rewrite (answer_call_present sock data now receiverRow st H).
    cbn [activeCallSessions activeUsers]. unfold answered. split; [|reflexivity].
    apply (get_set_same String.eqb String.eqb_eq).
  - now apply answer_call_absent.
Qed.

(** ** Who may answer, reject and end *)

(** C7: for a session in the table under [callId], what [answer_call],
    [reject_call] and [end_call] do to the table and what [end_call]
    writes to the database are the same for every sender, a participant of
    the call or not: the session becomes active, the session is removed,
    the outcome is written and the session removed. No handler tests that
    the sender is the caller or the receiver before it acts; [end_call]
    reads the sender only to choose whom to notify. *)
Theorem call_transitions_ignore_sender (sender sender' : Socket) (st : Server)
    (cid : string) (c : CallSession) :
  JsMap.get String.eqb (activeCallSessions st) cid = Some c ->
  (forall sdp now row row',
      let st' := after (answer_call sender (mkAnswerCall cid sdp) now row st) in
      JsMap.get String.eqb (activeCallSessions st') cid = Some (answered c sdp now)
      /\ status (answered c sdp now) = active
      /\ st' = after (answer_call sender' (mkAnswerCall cid sdp) now row' st))
  /\ (let st' := after (reject_call sender cid st) in
      JsMap.get String.eqb (activeCallSessions st') cid = None
      /\ reject_call sender cid st = reject_call sender' cid st)
  /\ (forall now,
      let r := end_call sender cid now ok st in
      JsMap.get String.eqb (activeCallSessions (after r)) cid = None
      /\ queries (effects r) =
         [InsertCallLog (callerId c) (receiverId c) (callType c) "completed"
                        (seconds_between (createdAt c) now)]
      /\ forall logged,
          after (end_call sender cid now logged st) =
          after (end_call sender' cid now logged st)
          /\ queries (effects (end_call sender cid now logged st)) =
             queries (effects (end_call sender' cid now logged st))).
Proof.
  intros H. split; [|split].
  - intros sdp now row row' st'. subst st'.
    rewrite (@answer_call_present sender (mkAnswerCall cid sdp) now row st c H).
    rewrite (@answer_call_present sender' (mkAnswerCall cid sdp) now row' st c H).
    cbn [activeCallSessions ac_callId ac_sdp]. repeat split.
    apply (get_set_same String.eqb String.eqb_eq).
  - cbn zeta.
    rewrite (reject_call_present sender cid st H).
    rewrite (reject_call_present sender' cid st H).
    cbn [after activeCallSessions]. split; [|reflexivity].
    apply (get_delete_same String.eqb String.eqb_eq).
  - intros now r. subst r.
    destruct (@end_call_present sender cid now st c H) as (Hok & Hrej & _).
    destruct (@end_call_present sender' cid now st c H) as (Hok' & Hrej' & _).
    split; [|split].
    + rewrite Hok. cbn [after activeCallSessions].
      apply (get_delete_same String.eqb String.eqb_eq).
    + now apply end_call_ignores_status.
    + intros logged. split.
      * destruct logged as [[]|]; fold ok.
        -- now rewrite Hok, Hok'.
        -- now rewrite Hrej, Hrej'.
      * now rewrite !(end_call_ignores_status _ _ _ _ _ H).
Qed.

(** C7 in the scenario where [ann] rings [bob]: [carol], who has no part
    in the call, rejects it, and the table is left as if [bob] had. *)
Lemma call_transitions_ignore_sender_witness :
  socket_userId carol <> 1 /\ socket_userId carol <> 2
  /\ JsMap.get String.eqb
       (activeCallSessions (after (reject_call carol "1_2_1000" ringing_call)))
       "1_2_1000" = None
  /\ reject_call carol "1_2_1000" ringing_call =
     reject_call bob "1_2_1000" ringing_call.
Proof.
  split; [discriminate|]. split; [discriminate|].
  refine (proj1 (proj2
    (@call_transitions_ignore_sender carol bob ringing_call "1_2_1000"
       (mkCallSession "1_2_1000" 1 2 "video" ringing 1001 None None) _))).
  reflexivity.
Defined.

(** ** The scenarios are states of the server *)

Lemma scenarios_reachable :
  reachable online /\ reachable ringing_call /\ reachable active_call
  /\ reachable reconnected.
Proof.
  assert (Honline : reachable online).
  { apply reachable_step with (st := after (user_connected ann 10 ok initial)).
    - apply reachable_step with (st := initial); constructor.
    - exact (step_user_connected bob 20 ok _). }
  assert (Hringing : reachable ringing_call).
  { apply reachable_step with (st := online); [exact Honline|].
    exact (step_initiate_call ann (mkInitiateCall 2 "video") 1000 1001 1002
                              (Resolved (Some "Ann")) online). }
  repeat split; trivial.
  - apply reachable_step with (st := ringing_call); [exact Hringing|].
    exact (step_answer_call bob (mkAnswerCall "1_2_1000" (Some "X")) 11000
                            (Resolved (Some "Bob")) ringing_call).
  - apply reachable_step with (st := after (user_connected bob 10 ok initial)).
    + apply reachable_step with (st := initial); constructor.
    + exact (step_user_connected bob_again 20 ok _).
Qed.

(** ** Call ids *)

Lemma In_set (K V : Type) (eqb : K -> K -> bool) (m : JsMap.t K V) (k k' : K)
    (v v' : V) :
  In (k', v') (JsMap.set eqb m k v) -> (k', v') = (k, v) \/ In (k', v') m.
Proof.
  induction m as [|[k0 v0] m IH]; cbn [JsMap.set].
  - intros [H|[]]. now left.
  - destruct (eqb k k0); intros [H|H].
    + now left.
    + right. now right.
    + right. now left.
    + destruct (IH H) as [E|E]; [now left | right; now right].
Qed.

Lemma NoDup_keys_swept (userId : Z) (visited : list (string * CallSession)) :
  forall sessions,
    NoDup (JsMap.keys sessions) ->
    NoDup (JsMap.keys (swept userId visited sessions)).
Proof.
  induction visited as [|e visited IH]; intros sessions Hnd; [exact Hnd|].
  cbn [swept fold_left]. fold (swept userId visited). apply IH.
  destruct (involves userId (snd e)); [|exact Hnd].
  now apply (NoDup_keys_delete String.eqb).
Qed.

Lemma well_keyed_sessions_set (users : JsMap.t Z Presence)
    (sessions : JsMap.t string CallSession) (cid : string) (c : CallSession) :
  well_keyed (mkServer users sessions) -> callId c = cid ->
  well_keyed (mkServer users (JsMap.set String.eqb sessions cid c)).
Proof.
  intros (Hu & Hs & Hk) Hc. repeat split; cbn [activeUsers activeCallSessions] in *.
  - exact Hu.
  - now apply (NoDup_keys_set String.eqb String.eqb_eq).
  - intros k e Hin. apply In_set in Hin.
    destruct Hin as [[= -> ->]|Hin]; [exact Hc | now apply Hk].
Qed.

Lemma well_keyed_sessions_delete (users : JsMap.t Z Presence)
    (sessions : JsMap.t string CallSession) (cid : string) :
  well_keyed (mkServer users sessions) ->
  well_keyed (mkServer users (JsMap.delete String.eqb sessions cid)).
Proof.
  intros (Hu & Hs & Hk). repeat split; cbn [activeUsers activeCallSessions] in *.
  - exact Hu.
  - now apply (NoDup_keys_delete String.eqb).
  - intros k e Hin. apply (In_delete String.eqb String.eqb_eq) in Hin.
    now apply Hk.
Qed.

Lemma well_keyed_users (users users' : JsMap.t Z Presence)
    (sessions : JsMap.t string CallSession) :
  well_keyed (mkServer users sessions) -> NoDup (JsMap.keys users') ->
  well_keyed (mkServer users' sessions).
Proof. intros (Hu & Hs & Hk) Hu'. now repeat split. Qed.

(** The table is a map: a handler leaves the sessions under pairwise
    distinct keys, each session under its [callId]. *)
Lemma step_well_keyed (st st' : Server) :
  step st st' -> well_keyed st -> well_keyed st'.
Proof.
  intros Hstep.
  destruct Hstep as [sock now updated st|sock data inserted others st
                    |sock data now created stamped callerRow st
                    |sock data now receiverRow st|sock cid st
                    |sock cid now logged st|sock updated st];
    destruct st as [users sessions]; intros Hwk.
  - assert (Hu : NoDup (JsMap.keys (JsMap.set Z.eqb users (socket_userId sock)
                   (mkPresence (socket_id sock) sock now)))).
    { apply (NoDup_keys_set Z.eqb Z.eqb_eq). apply Hwk. }
    destruct updated as [[]|]; run; now apply well_keyed_users with (users := users).
  - destruct inserted as [[id at_]|]; [|exact Hwk].
    destruct others as [[|receiverId rows]|]; run; try exact Hwk.
    destruct (JsMap.get Z.eqb users receiverId); exact Hwk.
  - destruct callerRow as [caller|]; [|exact Hwk]. run.
    destruct (JsMap.get Z.eqb users (ic_receiverId data)).
    + destruct caller; run; now apply well_keyed_sessions_set.
    + run. apply well_keyed_sessions_delete. now apply well_keyed_sessions_set.
  - destruct (JsMap.get String.eqb sessions (ac_callId data)) as [c|] eqn:H.
    + rewrite (@answer_call_present sock data now receiverRow (mkServer users sessions) c H).
      apply well_keyed_sessions_set; [exact Hwk|].
      apply (get_In String.eqb String.eqb_eq) in H.
      destruct Hwk as (_ & _ & Hk). exact (Hk _ _ H).
    + now rewrite answer_call_absent.
  - destruct (JsMap.get String.eqb sessions cid) as [c|] eqn:H.
    + rewrite (@reject_call_present sock cid (mkServer users sessions) c H).
      now apply well_keyed_sessions_delete.
    + now rewrite reject_call_absent.
  - destruct (JsMap.get String.eqb sessions cid) as [c|] eqn:H.
    + destruct (@end_call_present sock cid now (mkServer users sessions) c H)
        as (Hok & Hrej & _).
      destruct logged as [[]|]; fold ok.
      * rewrite Hok. now apply well_keyed_sessions_delete.
      * now rewrite Hrej.
    + now rewrite end_call_absent.
  - assert (Hu : NoDup (JsMap.keys (JsMap.delete Z.eqb users (socket_userId sock)))).
    { apply (NoDup_keys_delete Z.eqb). apply Hwk. }
    destruct updated as [[]|].
    + rewrite disconnect_resolved. cbn [after activeUsers activeCallSessions].
      destruct Hwk as (_ & Hs & Hk). repeat split.
      * exact Hu.
      * now apply NoDup_keys_swept.
      * intros k e Hin. apply In_swept in Hin. now apply Hk.
    + rewrite disconnect_rejected. cbn [after activeUsers activeCallSessions].
      now apply well_keyed_users with (users := users).
Qed.

Lemma reachable_well_keyed (st : Server) : reachable st -> well_keyed st.
Proof.
  induction 1 as [|st st' _ IH Hstep].
  - repeat split; try constructor. intros cid c [].
  - exact (step_well_keyed Hstep IH).
Qed.

(** C8 at the input where [ann] calls [bob] twice within the millisecond
    1000, first with video, then with voice. Both calls get the call id
    ["1_2_1000"]: [bob] is rung twice and [ann] is told twice that a call
    with that id is ringing, while the table holds one session, the second,
    which took the place of the first. *)
Theorem initiate_call_twice_in_a_millisecond :
  let video := initiate_call ann (mkInitiateCall 2 "video") 1000 1001 1002
                             (Resolved (Some "Ann")) in
  let voice := initiate_call ann (mkInitiateCall 2 "voice") 1000 1003 1004
                             (Resolved (Some "Ann")) in
  let r := (video ;; voice) online in
  make_callId 1 2 1000 = "1_2_1000"
  /\ events (effects r) =
     [incoming_call "1_2_1000" 1 "Ann" "video" 1002;
      call_initiated "1_2_1000" 2 "video" "ringing";
      incoming_call "1_2_1000" 1 "Ann" "voice" 1004;
      call_initiated "1_2_1000" 2 "voice" "ringing"]
  /\ JsMap.entries (activeCallSessions (after r)) =
     [("1_2_1000", mkCallSession "1_2_1000" 1 2 "voice" ringing 1003 None None)].
Proof. repeat split; reflexivity. Qed.

(** ** Sending a message *)

(** C9, as stated, fails: the message of [ann] is inserted, with id 42,
    and the query for the other participants is rejected. The rejection is
    thrown into the [catch]: [ann] is sent [error] and never
    [message_sent], although the message is stored. *)
Lemma send_message_stored_but_not_acknowledged :
  effects (send_message ann (mkSendMessage 7 "hi" None) (Resolved (42, 5000))
                        Rejected online) =
  [Query (InsertMessage 7 1 "hi" "text");
   Query (SelectOtherParticipants 7 1);
   Emit ann (error "Failed to send message")].
Proof. reflexivity. Qed.

(** C9, amended: the INSERT of the message is the first thing
    [send_message] does, before any relay. When the INSERT fails, or when
    the query for the other participants fails, nothing is relayed and the
    sender gets [error] instead of an acknowledgment. When both succeed, the
    sender is sent [message_sent] with the id and the timestamp the INSERT
    returned, whether or not a recipient is in the registry. The state is
    never changed. *)
Theorem send_message_persists_then_relays (sock : Socket) (data : SendMessage)
    (inserted : Settled (Z * Z)) (others : Settled (list Z)) (st : Server) :
  let r := send_message sock data inserted others st in
  let insert := Query (InsertMessage (sm_conversationId data) (socket_userId sock)
                                     (sm_messageText data)
                                     (or_text (sm_messageType data))) in
  let select := Query (SelectOtherParticipants (sm_conversationId data)
                                               (socket_userId sock)) in
  let failed := Emit sock (error "Failed to send message") in
  after r = st
  /\ effects r =
     match inserted, others with
     | Rejected, _ => [insert; failed]
     | Resolved _, Rejected => [insert; select; failed]
     | Resolved message, Resolved rows =>
         insert :: select :: relayed st sock data message rows
         ++ [Emit sock (message_sent (fst message) (snd message))]
     end%list.
Proof.
  destruct st as [users sessions].
  destruct inserted as [message|]; [|now split].
  destruct others as [[|receiverId rows]|]; try (now split).
  run. unfold relayed. cbn [activeUsers].
  now destruct (JsMap.get Z.eqb users receiverId).
Qed.

(** ** Rejecting or ending a call twice *)



(** * Further properties of the handlers *)

(** ** More on the map operations *)

Section JsMapMoreFacts.
Variables K V : Type.
Variable eqb : K -> K -> bool.
Hypothesis eqb_eq : forall a b, eqb a b = true <-> a = b.

Lemma delete_set (m : JsMap.t K V) (k : K) (v : V) :
  JsMap.delete eqb (JsMap.set eqb m k v) k = JsMap.delete eqb m k.
Proof.
  unfold JsMap.delete.
  induction m as [|[k0 v0] m IH]; cbn [JsMap.set filter fst].
  - now rewrite (key_eqb_refl eqb eqb_eq).
  - destruct (eqb k k0) eqn:E; cbn [filter fst].
    + now rewrite (key_eqb_refl eqb eqb_eq).
    + now rewrite E, IH.
Qed.

Lemma set_set (m : JsMap.t K V) (k : K) (v v' : V) :
  JsMap.set eqb (JsMap.set eqb m k v) k v' = JsMap.set eqb m k v'.
Proof.
  induction m as [|[k0 v0] m IH]; cbn [JsMap.set].
  - now rewrite (key_eqb_refl eqb eqb_eq).
  - destruct (eqb k k0) eqn:E; cbn [JsMap.set].
    + now rewrite (key_eqb_refl eqb eqb_eq).
    + now rewrite E, IH.
Qed.

Lemma NoDup_keys_get (m : JsMap.t K V) (k : K) (v : V) :
  NoDup (JsMap.keys m) -> In (k, v) m -> JsMap.get eqb m k = Some v.
Proof.
  induction m as [|[k0 v0] m IH]; [intros _ []|].
  cbn [JsMap.keys map fst JsMap.get]. intros Hnd [[= -> ->]|Hin].
  - now rewrite (key_eqb_refl eqb eqb_eq).
  - inversion Hnd as [|? ? Hnotin Hnd']; subst.
    destruct (eqb k k0) eqn:E.
    + apply eqb_eq in E. subst k0. exfalso. apply Hnotin.
      apply in_map_iff. now exists (k, v).
    + now apply IH.
Qed.

(** With one entry per key, [delete] drops one entry and keeps the rest. *)
Lemma NoDup_keys_delete_filter (m : JsMap.t K V) (k : K) (f : K * V -> bool) :
  NoDup (JsMap.keys m) ->
  (forall v, In (k, v) m -> f (k, v) = false) ->
  filter f (JsMap.delete eqb m k) = filter f m.
Proof.
  unfold JsMap.delete.
  induction m as [|[k0 v0] m IH]; [reflexivity|].
  cbn [JsMap.keys map fst]. intros Hnd Hf.
  inversion Hnd as [|? ? Hnotin Hnd']; subst.
  cbn [filter fst]. destruct (eqb k k0) eqn:E; cbn [negb filter].
  - apply eqb_eq in E. subst k0. rewrite (Hf v0) by now left.
    apply IH; [exact Hnd'|]. intros v Hin. apply Hf. now right.
  - rewrite IH; [reflexivity | exact Hnd' |].
    intros v Hin. apply Hf. now right.
Qed.
End JsMapMoreFacts.

(** ** Registration in [SocketHandler] *)

Lemma user_connected_after (sock : Socket) (now : Z) (updated : Settled unit)
    (st : Server) :
  after (user_connected sock now updated st) =
  mkServer (JsMap.set Z.eqb (activeUsers st) (socket_userId sock)
                      (mkPresence (socket_id sock) sock now))
           (activeCallSessions st).
Proof. destruct st as [users sessions]. now destruct updated as [[]|]. Qed.

(** X1: after [user_connected], the registry holds this socket under the
    user id of the socket, with the time of the registration, whatever was
    stored for that user before and whether or not the status update is
    persisted; the entries of the other users and the call sessions are
    left as they were. *)
Theorem user_connected_registers (sock : Socket) (now : Z)
    (updated : Settled unit) (st : Server) :
  let st' := after (user_connected sock now updated st) in
  JsMap.get Z.eqb (activeUsers st') (socket_userId sock) =
    Some (mkPresence (socket_id sock) sock now)
  /\ (forall other,
         other <> socket_userId sock ->
         JsMap.get Z.eqb (activeUsers st') other =
         JsMap.get Z.eqb (activeUsers st) other)
  /\ activeCallSessions st' = activeCallSessions st.
Proof.
  cbn zeta. rewrite user_connected_after. cbn [activeUsers activeCallSessions].
  split; [|split].
  - apply (get_set_same Z.eqb Z.eqb_eq).
  - intros other Hne. now apply (get_set_other Z.eqb Z.eqb_eq).
  - reflexivity.
Qed.

Lemma user_connected_registers_witness :
  1 <> socket_userId bob_again
  /\ JsMap.get Z.eqb
       (activeUsers (after (user_connected bob_again 30 Rejected online))) 1 =
     JsMap.get Z.eqb (activeUsers online) 1.
Proof.
  split; [discriminate|].
  apply (proj1 (proj2 (user_connected_registers bob_again 30 Rejected online))).
  discriminate.
Defined.

(** X2: [user_connected] announces the user and confirms the connection
    exactly when the status update is persisted: after the query,
    [user_status_changed] with ['online'] is broadcast through [io.emit]
    and then [connection_confirmed] is sent on the connecting socket; when
    the update is rejected the query is the only effect and no event at
    all is sent, although the user is registered. *)
Theorem user_connected_announces_when_persisted (sock : Socket) (now : Z)
    (updated : Settled unit) (st : Server) :
  let r := user_connected sock now updated st in
  let userId := socket_userId sock in
  effects r =
    Query (UpdateUserOnline userId)
    :: match updated with
       | Resolved _ =>
           [Broadcast (user_status_changed userId "online");
            Emit sock (connection_confirmed userId "Successfully connected")]
       | Rejected => []
       end
  /\ JsMap.get Z.eqb (activeUsers (after r)) userId <> None.
Proof.
  cbn zeta. split.
  - now destruct updated as [[]|].
  - rewrite user_connected_after. cbn [activeUsers].
    now rewrite (get_set_same Z.eqb Z.eqb_eq).
Qed.

(** X3: a registration followed by the disconnect of the same socket
    leaves the registry without the user, whatever the database answers to
    the two status updates; when the user was not registered before, the
    registry is back to what it was, entry for entry and in the same
    order. *)
Theorem connect_then_disconnect_restores_registry (sock : Socket) (now : Z)
    (online_updated offline_updated : Settled unit) (st : Server) :
  let st' := after (disconnect sock offline_updated
                      (after (user_connected sock now online_updated st))) in
  activeUsers st' = JsMap.delete Z.eqb (activeUsers st) (socket_userId sock)
  /\ (JsMap.get Z.eqb (activeUsers st) (socket_userId sock) = None ->
      activeUsers st' = activeUsers st).
Proof.
  cbn zeta.
  assert (H : activeUsers
                (after (disconnect sock offline_updated
                          (after (user_connected sock now online_updated st)))) =
              JsMap.delete Z.eqb (activeUsers st) (socket_userId sock)).
  { rewrite user_connected_after.
    destruct offline_updated as [[]|].
    - rewrite disconnect_resolved. cbn [after activeUsers].
      apply (delete_set Z.eqb Z.eqb_eq).
    - rewrite disconnect_rejected. cbn [after activeUsers].
      apply (delete_set Z.eqb Z.eqb_eq). }
  split; [exact H|].
  intros Habsent. rewrite H. now apply delete_absent.
Qed.

Lemma connect_then_disconnect_restores_registry_witness :
  JsMap.get Z.eqb (activeUsers online) (socket_userId carol) = None
  /\ activeUsers (after (disconnect carol Rejected
                           (after (user_connected carol 30 ok online)))) =
     activeUsers online.
Proof.
  split; [reflexivity|].
  apply (proj2 (connect_then_disconnect_restores_registry carol 30 ok Rejected
                  online)).
  reflexivity.
Defined.

(** ** What a step does to the two maps *)

Lemma disconnect_activeUsers (sock : Socket) (updated : Settled unit)
    (st : Server) :
  activeUsers (after (disconnect sock updated st)) =
  JsMap.delete Z.eqb (activeUsers st) (socket_userId sock).
Proof.
  destruct updated as [[]|].
  - now rewrite disconnect_resolved.
  - now rewrite disconnect_rejected.
Qed.

Lemma send_message_after (sock : Socket) (data : SendMessage)
    (inserted : Settled (Z * Z)) (others : Settled (list Z)) (st : Server) :
  after (send_message sock data inserted others st) = st.
Proof.
  destruct st as [users sessions].
  destruct inserted as [message|]; [|reflexivity].
  destruct others as [[|receiverId rows]|]; try reflexivity.
  run. now destruct (JsMap.get Z.eqb users receiverId).
Qed.

Lemma initiate_call_after (sock : Socket) (data : InitiateCall)
    (now created stamped : Z) (callerRow : Settled (option string))
    (st : Server) :
  let cid := make_callId (socket_userId sock) (ic_receiverId data) now in
  let stored := JsMap.set String.eqb (activeCallSessions st) cid
                          (rung sock data now created) in
  after (initiate_call sock data now created stamped callerRow st) =
  mkServer (activeUsers st)
    match callerRow with
    | Rejected => activeCallSessions st
    | Resolved _ =>
        match JsMap.get Z.eqb (activeUsers st) (ic_receiverId data) with
        | Some _ => stored
        | None => JsMap.delete String.eqb stored cid
        end
    end.
Proof.
  destruct st as [users sessions]. unfold rung.
  destruct callerRow as [caller|]; [|reflexivity]. run.
  destruct (JsMap.get Z.eqb users (ic_receiverId data)); [|reflexivity].
  now destruct caller.
Qed.

Lemma answer_call_after (sock : Socket) (data : AnswerCall) (now : Z)
    (receiverRow : Settled (option string)) (st : Server) :
  after (answer_call sock data now receiverRow st) =
  mkServer (activeUsers st)
    match JsMap.get String.eqb (activeCallSessions st) (ac_callId data) with
    | Some c => JsMap.set String.eqb (activeCallSessions st) (ac_callId data)
                          (answered c (ac_sdp data) now)
    | None => activeCallSessions st
    end.
Proof.
  destruct (JsMap.get String.eqb (activeCallSessions st) (ac_callId data))
    as [c|] eqn:H.
  - now rewrite (answer_call_present sock data now receiverRow st H).
  - rewrite answer_call_absent by exact H. now destruct st.
Qed.

Lemma reject_call_after (sock : Socket) (cid : string) (st : Server) :
  after (reject_call sock cid st) =
  mkServer (activeUsers st) (JsMap.delete String.eqb (activeCallSessions st) cid).
Proof.
  destruct (JsMap.get String.eqb (activeCallSessions st) cid) as [c|] eqn:H.
  - now rewrite (reject_call_present sock cid st H).
  - rewrite reject_call_absent by exact H. cbn [after].
    rewrite delete_absent by exact H. now destruct st.
Qed.

Lemma end_call_after (sock : Socket) (cid : string) (now : Z)
    (logged : Settled unit) (st : Server) :
  after (end_call sock cid now logged st) =
  mkServer (activeUsers st)
    match logged with
    | Resolved _ => JsMap.delete String.eqb (activeCallSessions st) cid
    | Rejected =>
        match JsMap.get String.eqb (activeCallSessions st) cid with
        | Some _ => activeCallSessions st
        | None => JsMap.delete String.eqb (activeCallSessions st) cid
        end
    end.
Proof.
  destruct (JsMap.get String.eqb (activeCallSessions st) cid) as [c|] eqn:H.
  - destruct (@end_call_present sock cid now st c H) as (Hok & Hrej & _).
    destruct logged as [[]|]; fold ok.
    + now rewrite Hok.
    + rewrite Hrej. now destruct st.
  - rewrite end_call_absent by exact H. cbn [after].
    rewrite delete_absent by exact H. destruct st. now destruct logged.
Qed.


(** The same for the registry: an entry after a step is an entry from
    before or the one [user_connected] stores. *)
Lemma step_users_forall (P : Z -> Presence -> Prop) :
  (forall sock now,
      P (socket_userId sock) (mkPresence (socket_id sock) sock now)) ->
  forall st st',
    step st st' ->
    (forall u p, In (u, p) (activeUsers st) -> P u p) ->
    forall u p, In (u, p) (activeUsers st') -> P u p.
Proof.
  intros Hnew st st' Hstep Hall u p.
  destruct Hstep as [sock now updated st|sock data inserted others st
                    |sock data now created stamped callerRow st
                    |sock data now receiverRow st|sock k st
                    |sock k now logged st|sock updated st].
  - rewrite user_connected_after. cbn [activeUsers]. intros Hin.
    apply In_set in Hin. destruct Hin as [[= -> ->]|Hin]; [apply Hnew|].
    now apply Hall.
  - rewrite send_message_after. apply Hall.
  - rewrite initiate_call_after. apply Hall.
  - rewrite answer_call_after. apply Hall.
  - rewrite reject_call_after. apply Hall.
  - rewrite end_call_after. apply Hall.
  - rewrite disconnect_activeUsers. intros Hin.
    apply (In_delete Z.eqb Z.eqb_eq) in Hin. now apply Hall.
Qed.

(** ** Invariants of the reachable states *)

(** X4: in every state the server can reach, the registry entry found
    under a user id holds a socket that was authenticated as that user,
    together with the id of that very socket: an event relayed to a user
    goes to a connection of that user. *)
Theorem reachable_presence_authentic (st : Server) (userId : Z) (p : Presence) :
  reachable st ->
  JsMap.get Z.eqb (activeUsers st) userId = Some p ->
  presence_authentic userId p.
Proof.
  intros Hreach Hget. apply (get_In Z.eqb Z.eqb_eq) in Hget.
  revert userId p Hget.
  induction Hreach as [|st st' _ IH Hstep]; [intros u p []|].
  apply (step_users_forall presence_authentic) with (st := st); trivial.
  intros sock now. now split.
Qed.

Lemma reachable_presence_authentic_witness :
  presence_authentic 2 (mkPresence "sock-b2" bob_again 20).
Proof.
  apply (@reachable_presence_authentic reconnected 2).
  - apply scenarios_reachable.
  - reflexivity.
Defined.

(** X5: in every state the server can reach, a lookup finds every entry
    of the two maps: an entry of the registry is the one [get] returns for
    its user id, and a session of the table is the one [get] returns for
    its [callId]; no entry is hidden behind another with the same key. *)
Theorem reachable_lookup_complete (st : Server) :
  reachable st ->
  (forall userId p,
      In (userId, p) (JsMap.entries (activeUsers st)) ->
      JsMap.get Z.eqb (activeUsers st) userId = Some p)
  /\ (forall cid c,
      In (cid, c) (JsMap.entries (activeCallSessions st)) ->
      JsMap.get String.eqb (activeCallSessions st) (callId c) = Some c).
Proof.
  intros Hreach. destruct (reachable_well_keyed Hreach) as (Hu & Hs & Hk).
  split.
  - intros u p Hin. now apply (NoDup_keys_get Z.eqb Z.eqb_eq).
  - intros cid c Hin. rewrite (Hk cid c Hin).
    now apply (NoDup_keys_get String.eqb String.eqb_eq).
Qed.

Lemma reachable_lookup_complete_witness :
  let c := mkCallSession "1_2_1000" 1 2 "video" active 1001 (Some "X")
                         (Some 11000) in
  JsMap.get String.eqb (activeCallSessions active_call) (callId c) = Some c.
Proof.
  intros c.
  apply (proj2 (@reachable_lookup_complete active_call
                  (proj1 (proj2 (proj2 scenarios_reachable)))) "1_2_1000" c).
  left. reflexivity.
Defined.



(** ** What disconnect keeps *)

Lemma filter_all (A : Type) (f : A -> bool) (l : list A) :
  (forall x, In x l -> f x = true) -> filter f l = l.
Proof.
  induction l as [|x l IH]; [reflexivity|]. intros H. cbn [filter].
  rewrite (H x) by now left. f_equal. apply IH. intros y Hy. apply H. now right.
Qed.

Lemma filter_swept (userId : Z) (visited : list (string * CallSession)) :
  forall sessions,
    NoDup (JsMap.keys sessions) ->
    (forall cid c c', In (cid, c) visited -> In (cid, c') sessions -> c' = c) ->
    filter (fun e => negb (involves userId (snd e)))
           (swept userId visited sessions) =
    filter (fun e => negb (involves userId (snd e))) sessions.
Proof.
  induction visited as [|[k e] visited IH]; intros sessions Hnd Hsame;
    [reflexivity|].
  cbn [swept fold_left fst snd].
  destruct (involves userId e) eqn:E.
  - transitivity (filter (fun e => negb (involves userId (snd e)))
                         (JsMap.delete String.eqb sessions k)).
    + apply IH.
      * now apply (NoDup_keys_delete String.eqb).
      * intros cid c c' Hin Hin'.
        apply (In_delete String.eqb String.eqb_eq) in Hin'.
        apply (Hsame cid c c'); [now right | apply Hin'].
    + apply (NoDup_keys_delete_filter String.eqb String.eqb_eq); [exact Hnd|].
      intros v Hin. cbn [snd].
      rewrite (Hsame k e v) by (trivial; now left). now rewrite E.
  - apply IH; [exact Hnd|].
    intros cid c c' Hin Hin'. apply (Hsame cid c c'); [now right | exact Hin'].
Qed.

(** X7: from a state the server can reach, a disconnect whose status
    update is persisted leaves in the table exactly the sessions whose
    [callerId] and whose [receiverId] both differ from the user id of the
    socket, all of them and in their order. *)
Theorem disconnect_keeps_the_other_sessions (sock : Socket) (st : Server) :
  reachable st ->
  activeCallSessions (after (disconnect sock ok st)) =
  filter (fun e => negb ((callerId (snd e) =? socket_userId sock)
                         || (receiverId (snd e) =? socket_userId sock)))
         (activeCallSessions st).
Proof.
  intros Hreach. destruct (reachable_well_keyed Hreach) as (_ & Hnd & _).
  unfold ok. rewrite disconnect_resolved. cbn [after activeCallSessions].
  change (fun e : string * CallSession =>
            negb ((callerId (snd e) =? socket_userId sock)
                  || (receiverId (snd e) =? socket_userId sock)))
    with (fun e : string * CallSession =>
            negb (involves (socket_userId sock) (snd e))).
  rewrite <- (@filter_swept (socket_userId sock) (activeCallSessions st)
                            (activeCallSessions st) Hnd).
  - symmetry. apply filter_all. intros [cid c] Hin. cbn [snd].
    apply In_swept in Hin. destruct Hin as [Hin Hclean].
    now rewrite (Hclean c Hin).
  - intros cid c c' Hin Hin'.
    apply (NoDup_keys_get String.eqb String.eqb_eq) in Hin, Hin'; trivial.
    congruence.
Qed.

Lemma two_calls_reachable : reachable two_calls.
Proof.
  apply reachable_step with (st := ringing_call); [apply scenarios_reachable|].
  exact (step_initiate_call carol (mkInitiateCall 1 "voice") 2000 2001 2002
                            (Resolved (Some "Carol")) ringing_call).
Qed.

Lemma disconnect_keeps_the_other_sessions_witness :
  activeCallSessions (after (disconnect bob ok two_calls)) =
    [("3_1_2000", mkCallSession "3_1_2000" 3 1 "voice" ringing 2001 None None)]
  /\ activeCallSessions (after (disconnect ann ok two_calls)) = []
  /\ activeCallSessions (after (disconnect carol ok two_calls)) =
     [("1_2_1000", mkCallSession "1_2_1000" 1 2 "video" ringing 1001 None None)].
Proof.
  split; [|split].
  - exact (@disconnect_keeps_the_other_sessions bob two_calls two_calls_reachable).
  - exact (@disconnect_keeps_the_other_sessions ann two_calls two_calls_reachable).
  - exact (@disconnect_keeps_the_other_sessions carol two_calls two_calls_reachable).
Defined.

(** ** Setting up a call in [SocketHandler] *)

(** X8: when the receiver is in the registry and the row of the caller is
    found, [initiate_call] rings the receiver on the registered socket with
    [incoming_call], then tells the caller [call_initiated], both with the
    same call id, and the ringing session is found in the table under that
    id. *)
Theorem initiate_call_rings_receiver (sock : Socket) (data : InitiateCall)
    (now created stamped : Z) (callerName : string) (p : Presence)
    (st : Server) :
  JsMap.get Z.eqb (activeUsers st) (ic_receiverId data) = Some p ->
  let r := initiate_call sock data now created stamped
                         (Resolved (Some callerName)) st in
  let cid := make_callId (socket_userId sock) (ic_receiverId data) now in
  effects r =
    [Query (SelectUser (socket_userId sock));
     Emit (socket p) (incoming_call cid (socket_userId sock) callerName
                                    (ic_callType data) stamped);
     Emit sock (call_initiated cid (ic_receiverId data) (ic_callType data)
                               "ringing")]
  /\ JsMap.get String.eqb (activeCallSessions (after r)) cid =
     Some (rung sock data now created)
  /\ completion r = Returned tt.
Proof.
  intros H. cbn zeta. split; [|split].
  - destruct st as [users sessions]. cbn [activeUsers] in H. run. now rewrite H.
  - rewrite initiate_call_after. cbn [activeCallSessions]. rewrite H.
    apply (get_set_same String.eqb String.eqb_eq).
  - destruct st as [users sessions]. cbn [activeUsers] in H. run. now rewrite H.
Qed.

Lemma initiate_call_rings_receiver_witness :
  JsMap.get String.eqb (activeCallSessions (after (ring_bob online))) "1_2_1000" =
  Some (mkCallSession "1_2_1000" 1 2 "video" ringing 1001 None None).
Proof.
  refine (proj1 (proj2 (@initiate_call_rings_receiver ann
            (mkInitiateCall 2 "video") 1000 1001 1002 "Ann"
            (mkPresence "sock-b" bob 20) online _))).
  reflexivity.
Defined.

(** X9: what a failed [initiate_call] leaves behind. When the query for
    the caller is rejected, the state is unchanged and the caller is sent
    [error]. When the query finds no row for the caller although the
    receiver is in the registry, the receiver is not rung and the caller is
    sent [error], yet the ringing session has been stored and stays in the
    table. *)
Theorem initiate_call_failures (sock : Socket) (data : InitiateCall)
    (now created stamped : Z) (st : Server) :
  let failed := Emit sock (error "Failed to initiate call") in
  let lookup := Query (SelectUser (socket_userId sock)) in
  initiate_call sock data now created stamped Rejected st =
    mkRun st [lookup; failed] (Returned tt)
  /\ (forall p,
         JsMap.get Z.eqb (activeUsers st) (ic_receiverId data) = Some p ->
         let r := initiate_call sock data now created stamped (Resolved None) st in
         effects r = [lookup; failed]
         /\ JsMap.get String.eqb (activeCallSessions (after r))
              (make_callId (socket_userId sock) (ic_receiverId data) now) =
            Some (rung sock data now created)).
Proof.
  cbn zeta. split; [reflexivity|]. intros p H. split.
  - destruct st as [users sessions]. cbn [activeUsers] in H. run. now rewrite H.
  - rewrite initiate_call_after. cbn [activeCallSessions]. rewrite H.
    apply (get_set_same String.eqb String.eqb_eq).
Qed.

Lemma initiate_call_failures_witness :
  let r := initiate_call ann (mkInitiateCall 2 "video") 1000 1001 1002
                         (Resolved None) online in
  events (effects r) = [error "Failed to initiate call"]
  /\ JsMap.get String.eqb (activeCallSessions (after r)) "1_2_1000" =
     Some (mkCallSession "1_2_1000" 1 2 "video" ringing 1001 None None).
Proof.
  destruct (proj2 (initiate_call_failures ann (mkInitiateCall 2 "video")
                     1000 1001 1002 online)
                  (mkPresence "sock-b" bob 20)) as [Heff Hget].
  - reflexivity.
  - split; [|exact Hget]. cbn zeta in Heff. now rewrite Heff.
Defined.

(** ** Answering in [SocketHandler] *)

(** X10: when the session exists and the row of the answering user is
    found, [answer_call] sends [call_answered], with the sdp of the request
    and the call type of the session, to the registered socket of the
    caller, and then [call_connected] to the sender; when the caller is no
    longer in the registry the sender is sent [call_connected] all the
    same. *)
Theorem answer_call_relays_answer (sock : Socket) (data : AnswerCall) (now : Z)
    (receiverName : string) (c : CallSession) (st : Server) :
  JsMap.get String.eqb (activeCallSessions st) (ac_callId data) = Some c ->
  effects (answer_call sock data now (Resolved (Some receiverName)) st) =
  (Query (SelectUser (socket_userId sock))
   :: match JsMap.get Z.eqb (activeUsers st) (callerId c) with
      | Some p =>
          [Emit (socket p)
                (call_answered (ac_callId data) (socket_userId sock)
                               receiverName (ac_sdp data) (callType c))]
      | None => []
      end
   ++ [Emit sock (call_connected (ac_callId data) "active")])%list.
Proof.
  intros H. destruct st as [users sessions]. cbn [activeCallSessions] in H.
  run. rewrite H. run. now destruct (JsMap.get Z.eqb users (callerId c)).
Qed.

Lemma answer_call_relays_answer_witness :
  effects (answer_call bob (mkAnswerCall "1_2_1000" (Some "X")) 11000
                       (Resolved (Some "Bob")) ringing_call) =
  [Query (SelectUser 2);
   Emit ann (call_answered "1_2_1000" 2 "Bob" (Some "X") "video");
   Emit bob (call_connected "1_2_1000" "active")].
Proof.
  refine (@answer_call_relays_answer bob (mkAnswerCall "1_2_1000" (Some "X")) 11000
            "Bob" (mkCallSession "1_2_1000" 1 2 "video" ringing 1001 None None)
            ringing_call _).
  reflexivity.
Defined.

(** X11: [answer_call] marks the session before it asks the database.
    When the query for the answering user is rejected, or finds no row
    while the caller is in the registry, the sender is sent [error] and
    nobody is sent [call_answered] or [call_connected], yet the session in
    the table has status active, the sdp of the failed request and the
    time of the failed request as [answeredAt], its other fields as
    before. *)
Theorem answer_call_failure_keeps_session_active (sock : Socket)
    (data : AnswerCall) (now : Z) (c : CallSession) (st : Server) :
  JsMap.get String.eqb (activeCallSessions st) (ac_callId data) = Some c ->
  let failed := [Query (SelectUser (socket_userId sock));
                 Emit sock (error "Failed to answer call")] in
  let marked :=
      Some (mkCallSession (callId c) (callerId c) (receiverId c) (callType c)
                          active (createdAt c) (ac_sdp data) (Some now)) in
  (let r := answer_call sock data now Rejected st in
   effects r = failed
   /\ JsMap.get String.eqb (activeCallSessions (after r)) (ac_callId data) = marked)
  /\ (forall p,
         JsMap.get Z.eqb (activeUsers st) (callerId c) = Some p ->
         let r := answer_call sock data now (Resolved None) st in
         effects r = failed
         /\ JsMap.get String.eqb (activeCallSessions (after r)) (ac_callId data) =
            marked).
Proof.
  intros H. cbn zeta.
  assert (Hmarked : forall row,
             JsMap.get String.eqb
               (activeCallSessions (after (answer_call sock data now row st)))
               (ac_callId data) = Some (answered c (ac_sdp data) now)).
  { intros row. rewrite answer_call_after. cbn [activeCallSessions]. rewrite H.
    apply (get_set_same String.eqb String.eqb_eq). }
  split; [split; [|apply Hmarked] | intros p Hp; split; [|apply Hmarked]].
  - destruct st as [users sessions]. cbn [activeCallSessions] in H.
    run. rewrite H. reflexivity.
  - destruct st as [users sessions]. cbn [activeCallSessions activeUsers] in H, Hp.
    run. rewrite H. run. now rewrite Hp.
Qed.

Lemma answer_call_failure_keeps_session_active_witness :
  JsMap.get String.eqb
    (activeCallSessions
       (after (answer_call bob (mkAnswerCall "1_2_1000" (Some "X")) 11000 Rejected
                           ringing_call)))
    "1_2_1000" =
  Some (mkCallSession "1_2_1000" 1 2 "video" active 1001 (Some "X") (Some 11000)).
Proof.
  refine (proj2 (proj1 (@answer_call_failure_keeps_session_active bob
            (mkAnswerCall "1_2_1000" (Some "X")) 11000
            (mkCallSession "1_2_1000" 1 2 "video" ringing 1001 None None)
            ringing_call _))).
  reflexivity.
Defined.

(** ** What the call handlers leave alone *)

(** X12: a call handler touches one session at most. [answer_call],
    [reject_call] and [end_call] leave every session under another call id
    as it was, [initiate_call] every session under an id other than the one
    it makes; none of the four changes the registry, and [send_message]
    changes nothing at all. *)
Theorem call_handlers_frame (sock : Socket) (st : Server) (cid other : string) :
  other <> cid ->
  (forall sdp now row,
      let st' := after (answer_call sock (mkAnswerCall cid sdp) now row st) in
      JsMap.get String.eqb (activeCallSessions st') other =
      JsMap.get String.eqb (activeCallSessions st) other
      /\ activeUsers st' = activeUsers st)
  /\ (let st' := after (reject_call sock cid st) in
      JsMap.get String.eqb (activeCallSessions st') other =
      JsMap.get String.eqb (activeCallSessions st) other
      /\ activeUsers st' = activeUsers st)
  /\ (forall now logged,
      let st' := after (end_call sock cid now logged st) in
      JsMap.get String.eqb (activeCallSessions st') other =
      JsMap.get String.eqb (activeCallSessions st) other
      /\ activeUsers st' = activeUsers st)
  /\ (forall data now created stamped row,
      make_callId (socket_userId sock) (ic_receiverId data) now = cid ->
      let st' := after (initiate_call sock data now created stamped row st) in
      JsMap.get String.eqb (activeCallSessions st') other =
      JsMap.get String.eqb (activeCallSessions st) other
      /\ activeUsers st' = activeUsers st)
  /\ (forall data inserted others,
      after (send_message sock data inserted others st) = st).
Proof.
  intros Hne. repeat split.
  - rewrite answer_call_after. cbn [activeCallSessions ac_callId].
    destruct (JsMap.get String.eqb (activeCallSessions st) cid); [|reflexivity].
    now apply (get_set_other String.eqb String.eqb_eq).
  - now rewrite answer_call_after.
  - rewrite reject_call_after. cbn [activeCallSessions].
    now apply (get_delete_other String.eqb String.eqb_eq).
  - now rewrite reject_call_after.
  - rewrite end_call_after. cbn [activeCallSessions].
    destruct logged as [[]|];
      [|destruct (JsMap.get String.eqb (activeCallSessions st) cid); trivial];
      now apply (get_delete_other String.eqb String.eqb_eq).
  - now rewrite end_call_after.
  - rewrite initiate_call_after. cbn [activeCallSessions]. rewrite H.
    destruct row as [caller|]; [|reflexivity].
    destruct (JsMap.get Z.eqb (activeUsers st) (ic_receiverId data)).
    + now apply (get_set_other String.eqb String.eqb_eq).
    + rewrite (get_delete_other String.eqb String.eqb_eq) by exact Hne.
      now apply (get_set_other String.eqb String.eqb_eq).
  - now rewrite initiate_call_after.
  - intros data inserted others. apply send_message_after.
Qed.

Lemma call_handlers_frame_witness :
  JsMap.get String.eqb
    (activeCallSessions (after (reject_call bob "1_2_1000" two_calls)))
    "3_1_2000" =
  Some (mkCallSession "3_1_2000" 3 1 "voice" ringing 2001 None None)
  /\ JsMap.get String.eqb
       (activeCallSessions (after (reject_call bob "1_2_1000" two_calls)))
       "1_2_1000" = None
  /\ JsMap.get String.eqb (activeCallSessions two_calls) "1_2_1000" <> None.
Proof.
  split; [|split; [reflexivity | discriminate]].
  refine (eq_trans (proj1 (proj1 (proj2
            (@call_handlers_frame bob two_calls "1_2_1000" "3_1_2000" _)))) _).
  - discriminate.
  - reflexivity.
Defined.

(** ** ICE candidates in [SocketHandler] *)

(** X13: [ice_candidate] never changes the state. For a session whose two
    parties are in the registry, a candidate from the caller goes to the
    registered socket of the receiver, and a candidate from any other
    sender, the receiver or a third user, goes to the registered socket of
    the caller; for an unknown call id nothing is sent. *)
Theorem ice_candidate_relays_between_parties (sock : Socket)
    (cid candidate : string) (st : Server) :
  after (ice_candidate sock cid candidate st) = st
  /\ (JsMap.get String.eqb (activeCallSessions st) cid = None ->
      effects (ice_candidate sock cid candidate st) = [])
  /\ (forall c pc pr,
         JsMap.get String.eqb (activeCallSessions st) cid = Some c ->
         JsMap.get Z.eqb (activeUsers st) (callerId c) = Some pc ->
         JsMap.get Z.eqb (activeUsers st) (receiverId c) = Some pr ->
         effects (ice_candidate sock cid candidate st) =
         [EmitIce (socket (if callerId c =? socket_userId sock then pr else pc))
                  cid candidate]).
Proof.
  destruct st as [users sessions]. cbn [activeCallSessions activeUsers].
  split; [|split].
  - run_more. destruct (JsMap.get String.eqb sessions cid) as [c|]; [|reflexivity].
    run_more.
    now destruct (JsMap.get Z.eqb users (other_party c (socket_userId sock))).
  - intros H. run_more. now rewrite H.
  - intros c pc pr H Hc Hr. run_more. rewrite H.
    run_more. unfold other_party.
    destruct (callerId c =? socket_userId sock).
    + now rewrite Hr.
    + now rewrite Hc.
Qed.

Lemma ice_candidate_relays_between_parties_witness :
  effects (ice_candidate carol "1_2_1000" "candidate:0" active_call) =
  [EmitIce ann "1_2_1000" "candidate:0"].
Proof.
  refine (proj2 (proj2 (ice_candidate_relays_between_parties carol "1_2_1000"
            "candidate:0" active_call))
            (mkCallSession "1_2_1000" 1 2 "video" active 1001 (Some "X")
                           (Some 11000))
            (mkPresence "sock-a" ann 10) (mkPresence "sock-b" bob 20) _ _ _);
    reflexivity.
Defined.

(** ** The record of a call *)

(** X14: for a session in the table, the duration [end_call] writes to
    [call_logs] and the duration it sends to the other party in
    [call_ended] are the same number [d], the whole seconds between
    [createdAt] and the end rounded down: [1000 d <= now - createdAt <
    1000 d + 1000]. It is not clamped: a clock reading before [createdAt]
    gives a negative duration. *)
Theorem end_call_duration_whole_seconds (sock : Socket) (cid : string)
    (now : Z) (c : CallSession) (st : Server) :
  JsMap.get String.eqb (activeCallSessions st) cid = Some c ->
  let r := end_call sock cid now ok st in
  let d := seconds_between (createdAt c) now in
  queries (effects r) =
    [InsertCallLog (callerId c) (receiverId c) (callType c) "completed" d]
  /\ (forall to ev, In (Emit to ev) (effects r) ->
                    ev = call_ended cid "ended_by_user" (Some d))
  /\ 1000 * d <= now - createdAt c < 1000 * d + 1000
  /\ (d < 0 <-> now < createdAt c).
Proof.
  intros H. cbn zeta.
  destruct (@end_call_present sock cid now st c H) as (Hok & _ & _).
  rewrite Hok. cbn [effects]. unfold seconds_between.
  pose proof (Z.div_mod (now - createdAt c) 1000 ltac:(lia)) as Hdm.
  pose proof (Z.mod_pos_bound (now - createdAt c) 1000 ltac:(lia)) as Hb.
  repeat split; try lia.
  - cbn [queries flat_map app]. now destruct (JsMap.get Z.eqb (activeUsers st) _).
  - intros to ev [Hin|Hin]; [discriminate|].
    destruct (JsMap.get Z.eqb (activeUsers st) _); [|destruct Hin].
    destruct Hin as [[= _ <-]|[]]. reflexivity.
Qed.

Lemma end_call_duration_whole_seconds_witness :
  queries (effects (end_call ann "1_2_1000" 999 ok ringing_call)) =
  [InsertCallLog 1 2 "video" "completed" (-1)].
Proof.
  refine (proj1 (@end_call_duration_whole_seconds ann "1_2_1000" 999
            (mkCallSession "1_2_1000" 1 2 "video" ringing 1001 None None)
            ringing_call _)).
  reflexivity.
Defined.

(** X15: the only INSERT into [call_logs] is the one of [end_call], issued
    exactly when the session exists: registering, sending a message,
    initiating, answering and rejecting a call and disconnecting never
    write a call record, whatever the state and whatever the database
    answers. *)
Theorem call_log_written_by_end_call_only (sock : Socket) (st : Server) :
  (forall now updated,
      writes_call_log (effects (user_connected sock now updated st)) = false)
  /\ (forall data inserted others,
      writes_call_log (effects (send_message sock data inserted others st)) = false)
  /\ (forall data now created stamped row,
      writes_call_log
        (effects (initiate_call sock data now created stamped row st)) = false)
  /\ (forall data now row,
      writes_call_log (effects (answer_call sock data now row st)) = false)
  /\ (forall cid, writes_call_log (effects (reject_call sock cid st)) = false)
  /\ (forall updated, writes_call_log (effects (disconnect sock updated st)) = false)
  /\ (forall cid now logged,
      writes_call_log (effects (end_call sock cid now logged st)) =
      match JsMap.get String.eqb (activeCallSessions st) cid with
      | Some _ => true
      | None => false
      end).
Proof.
  destruct st as [users sessions]. repeat split.
  - intros now updated. now destruct updated as [[]|].
  - intros data inserted others.
    destruct inserted as [message|]; [|reflexivity].
    destruct others as [[|receiverId rows]|]; try reflexivity.
    run. now destruct (JsMap.get Z.eqb users receiverId).
  - intros data now created stamped row.
    destruct row as [caller|]; [|reflexivity]. run.
    destruct (JsMap.get Z.eqb users (ic_receiverId data)); [|reflexivity].
    now destruct caller.
  - intros data now row. run.
    destruct (JsMap.get String.eqb sessions (ac_callId data)) as [c|];
      [|reflexivity].
    run. destruct row as [[name|]|]; run;
      now destruct (JsMap.get Z.eqb users (callerId c)).
  - intros cid. run.
    destruct (JsMap.get String.eqb sessions cid) as [c|]; [|reflexivity].
    run. now destruct (JsMap.get Z.eqb users (callerId c)).
  - intros updated. destruct updated as [[]|]; [|reflexivity].
    rewrite disconnect_resolved. cbn [effects activeCallSessions activeUsers].
    unfold writes_call_log. cbn [queries flat_map app].
    fold (queries (flat_map
                     (disconnect_notice
                        (JsMap.delete Z.eqb users (socket_userId sock))
                        (socket_userId sock)) sessions)).
    now rewrite queries_disconnect_notice.
  - intros cid now logged. unfold writes_call_log. cbn [activeCallSessions].
    destruct (JsMap.get String.eqb sessions cid) as [c|] eqn:H.
    + now rewrite (@end_call_ignores_status sock cid now logged
                     (mkServer users sessions) c H).
    + now rewrite end_call_absent.
Qed.

(** ** Round trips of the session table *)

Lemma delete_delete (m : JsMap.t string CallSession) (k : string) :
  JsMap.delete String.eqb (JsMap.delete String.eqb m k) k =
  JsMap.delete String.eqb m k.
Proof.
  apply delete_absent. apply (get_delete_same String.eqb String.eqb_eq).
Qed.

(** X16: setting a call up and tearing it down gives the table back. When
    the call id that [initiate_call] makes is not in use, the table after
    [initiate_call] followed by [reject_call], and the table after
    [initiate_call], [answer_call] and an [end_call] whose record is
    written, are the table from before, entry for entry, whoever sends the
    later events, whether or not the receiver is in the registry and
    whatever the database answers to the lookups of the names. *)
Theorem call_setup_then_teardown_restores_table (caller sender sender' : Socket)
    (data : InitiateCall) (now created stamped : Z)
    (callerRow : Settled (option string)) (st : Server) :
  let cid := make_callId (socket_userId caller) (ic_receiverId data) now in
  let rung_up := after (initiate_call caller data now created stamped
                                      callerRow st) in
  JsMap.get String.eqb (activeCallSessions st) cid = None ->
  after (reject_call sender cid rung_up) = st
  /\ (forall sdp answered_at receiverRow ended_at,
         after (end_call sender' cid ended_at ok
                  (after (answer_call sender (mkAnswerCall cid sdp) answered_at
                                      receiverRow rung_up))) = st).
Proof.
  intros cid rung_up Hfresh. subst rung_up.
  assert (Hafter : forall sessions',
             JsMap.delete String.eqb sessions' cid =
             JsMap.delete String.eqb (activeCallSessions st) cid ->
             mkServer (activeUsers st) (JsMap.delete String.eqb sessions' cid) = st).
  { intros sessions' ->. rewrite delete_absent by exact Hfresh. now destruct st. }
  assert (Hrung : JsMap.delete String.eqb
                    (activeCallSessions
                       (after (initiate_call caller data now created stamped
                                             callerRow st))) cid =
                  JsMap.delete String.eqb (activeCallSessions st) cid).
  { rewrite initiate_call_after. cbn [activeCallSessions]. fold cid.
    destruct callerRow as [row|]; [|reflexivity].
    destruct (JsMap.get Z.eqb (activeUsers st) (ic_receiverId data)).
    - apply (delete_set String.eqb String.eqb_eq).
    - rewrite delete_delete. apply (delete_set String.eqb String.eqb_eq). }
  split.
  - rewrite reject_call_after. rewrite initiate_call_after at 1.
    cbn [activeUsers]. now apply Hafter.
  - intros sdp answered_at receiverRow ended_at.
    unfold ok. rewrite end_call_after, answer_call_after.
    cbn [activeUsers activeCallSessions ac_callId ac_sdp].
    rewrite initiate_call_after at 1. cbn [activeUsers].
    apply Hafter.
    set (t := activeCallSessions
                (after (initiate_call caller data now created stamped
                                      callerRow st))) in *.
    destruct (JsMap.get String.eqb t cid); [|exact Hrung].
    rewrite (delete_set String.eqb String.eqb_eq). exact Hrung.
Qed.

Lemma call_setup_then_teardown_restores_table_witness :
  after (reject_call bob "1_2_1000" (after (ring_bob online))) = online.
Proof.
  refine (proj1 (@call_setup_then_teardown_restores_table ann bob bob
            (mkInitiateCall 2 "video") 1000 1001 1002 (Resolved (Some "Ann"))
            online _)).
  reflexivity.
Defined.

(** X17: a call to a user who is not in the registry leaves no trace in
    the state: when the call id it makes is not in use, the state after
    [initiate_call] is the state from before. *)
Theorem initiate_call_offline_restores_state (sock : Socket)
    (data : InitiateCall) (now created stamped : Z)
    (callerRow : Settled (option string)) (st : Server) :
  JsMap.get Z.eqb (activeUsers st) (ic_receiverId data) = None ->
  JsMap.get String.eqb (activeCallSessions st)
            (make_callId (socket_userId sock) (ic_receiverId data) now) = None ->
  after (initiate_call sock data now created stamped callerRow st) = st.
Proof.
  intros Hoffline Hfresh. rewrite initiate_call_after. rewrite Hoffline.
  destruct callerRow as [row|]; [|now destruct st].
  rewrite (delete_set String.eqb String.eqb_eq).
  rewrite delete_absent by exact Hfresh. now destruct st.
Qed.

Lemma initiate_call_offline_restores_state_witness :
  after (initiate_call ann (mkInitiateCall 3 "video") 1000 1001 1002
                       (Resolved (Some "Ann")) ringing_call) = ringing_call.
Proof.
  apply initiate_call_offline_restores_state; reflexivity.
Defined.

(** ** What [send_message] of [SocketHandler] relays *)

(** X18: whenever [send_message] sends a [new_message], the message has
    been inserted before, the event carries the id and the timestamp the
    INSERT returned and the conversation, sender, text and type of the
    INSERT, marked unread, and it goes to one socket only: the one
    registered for the first row of the participant query. *)
Theorem send_message_relays_what_was_stored (sock : Socket) (data : SendMessage)
    (inserted : Settled (Z * Z)) (others : Settled (list Z)) (st : Server)
    (to : Socket) (conversationId messageId senderId : Z)
    (messageText messageType : string) (created_at : Z) (is_read : bool) :
  let r := send_message sock data inserted others st in
  In (Emit to (new_message conversationId messageId senderId messageText
                           messageType created_at is_read)) (effects r) ->
  inserted = Resolved (messageId, created_at)
  /\ (exists later,
         effects r =
         Query (InsertMessage conversationId senderId messageText messageType)
         :: later)
  /\ senderId = socket_userId sock /\ is_read = false
  /\ (exists receiverId rest p,
         others = Resolved (receiverId :: rest)
         /\ JsMap.get Z.eqb (activeUsers st) receiverId = Some p
         /\ to = socket p)
  /\ count_occ_new_message (effects r) = 1%nat.
Proof.
  destruct st as [users sessions]. cbn zeta. cbn [activeUsers].
  destruct inserted as [[mid ts]|].
  - destruct others as [[|receiverId rows]|].
    + intros [H|[H|[H|[]]]]; discriminate.
    + run. destruct (JsMap.get Z.eqb users receiverId) as [p|] eqn:Hp; run.
      * intros [H|[H|[H|[H|[]]]]]; try discriminate.
        injection H as <- <- <- <- <- <- <- <-.
        repeat split; try reflexivity.
        -- eexists. reflexivity.
        -- now exists receiverId, rows, p.
      * intros [H|[H|[H|[]]]]; discriminate.
    + intros [H|[H|[H|[]]]]; discriminate.
  - intros [H|[H|[]]]; discriminate.
Qed.

Lemma send_message_relays_what_was_stored_witness :
  count_occ_new_message
    (effects (send_message ann (mkSendMessage 7 "hi" None)
                           (Resolved (42, 5000)) (Resolved [2; 3]) online)) = 1%nat.
Proof.
  refine (proj2 (proj2 (proj2 (proj2 (proj2
            (@send_message_relays_what_was_stored ann (mkSendMessage 7 "hi" None)
               (Resolved (42, 5000)) (Resolved [2; 3]) online
               bob 7 42 1 "hi" "text" 5000 false _)))))).
  right. right. left. reflexivity.
Defined.

(** ** The registry of [RoomSocketHandler] *)

(** X19: after [connection], [connectedUsers] holds the id of this socket
    under the user id of the socket, whatever was stored before, and the
    entries of the other users are as they were. When the status update is
    rejected this is all that happened: nothing is broadcast and the
    callback ends by the thrown error, before any handler of the socket is
    registered. *)
Theorem room_connection_registers (sock : Socket) (updated : Settled unit)
    (st : RoomSocketHandler.Server) :
  let r := RoomSocketHandler.connection sock updated st in
  JsMap.get Z.eqb (RoomSocketHandler.connectedUsers (after r))
            (socket_userId sock) = Some (socket_id sock)
  /\ (forall other,
         other <> socket_userId sock ->
         JsMap.get Z.eqb (RoomSocketHandler.connectedUsers (after r)) other =
         JsMap.get Z.eqb (RoomSocketHandler.connectedUsers st) other)
  /\ match updated with
     | Resolved _ =>
         completion r = Returned tt
         /\ effects r =
            [RoomSocketHandler.Query
               (RoomSocketHandler.UpdateUserOnline (socket_userId sock));
             RoomSocketHandler.BroadcastFrom sock
               (RoomSocketHandler.user_status (socket_userId sock) true)]
     | Rejected =>
         completion r = Thrown
         /\ effects r =
            [RoomSocketHandler.Query
               (RoomSocketHandler.UpdateUserOnline (socket_userId sock))]
     end.
Proof.
  destruct st as [users]. cbn zeta.
  assert (H : RoomSocketHandler.connectedUsers
                (after (RoomSocketHandler.connection sock updated
                          (RoomSocketHandler.mkServer users))) =
              JsMap.set Z.eqb users (socket_userId sock) (socket_id sock)).
  { now destruct updated as [[]|]. }
  rewrite H. cbn [RoomSocketHandler.connectedUsers]. split; [|split].
  - apply (get_set_same Z.eqb Z.eqb_eq).
  - intros other Hne. now apply (get_set_other Z.eqb Z.eqb_eq).
  - now destruct updated as [[]|].
Qed.

Lemma room_connection_registers_witness :
  let st := after (RoomSocketHandler.connection ann ok RoomSocketHandler.initial) in
  1 <> socket_userId bob
  /\ JsMap.get Z.eqb
       (RoomSocketHandler.connectedUsers
          (after (RoomSocketHandler.connection bob Rejected st))) 1 =
     JsMap.get Z.eqb (RoomSocketHandler.connectedUsers st) 1.
Proof.
  intros st. split; [discriminate|].
  apply (proj1 (proj2 (room_connection_registers bob Rejected st))).
  discriminate.
Defined.

(** ** Messages in [RoomSocketHandler] *)

Lemma for_each_notify_participant (sock : Socket)
    (data : RoomEvents.SendMessage) (senderName : string) (rows : list Z)
    (st : RoomSocketHandler.Server) :
  for_each rows (RoomEvents.notify_participant sock data senderName) st =
  mkRun st (RoomEvents.notices st sock data senderName rows) (Returned tt).
Proof.
  induction rows as [|user_id rows IH]; [reflexivity|].
  cbn [for_each]. unfold bind.
  assert (Hone : RoomEvents.notify_participant sock data senderName user_id st =
                 mkRun st (RoomEvents.notices st sock data senderName [user_id])
                       (Returned tt)).
  { unfold RoomEvents.notify_participant, RoomEvents.notices. run_more.
    cbn [flat_map]. rewrite app_nil_r.
    now destruct (JsMap.get Z.eqb (RoomSocketHandler.connectedUsers st) user_id). }
  rewrite Hone. cbn [after effects completion]. rewrite IH.
  cbn [after effects completion]. unfold RoomEvents.notices.
  cbn [flat_map]. now rewrite app_nil_r.
Qed.

Lemma room_send_message_run (sock : Socket) (data : RoomEvents.SendMessage)
    (inserted : Settled RoomEvents.MessageRow)
    (senderRow : Settled (option (string * string)))
    (participants : Settled (list Z)) (st : RoomSocketHandler.Server) :
  let r := RoomEvents.send_message sock data inserted senderRow participants st in
  let conversationId := RoomEvents.sm_conversationId data in
  let insert := RoomEvents.Query
                  (RoomEvents.InsertMessage conversationId (socket_userId sock)
                     (RoomEvents.sm_messageText data)
                     (RoomEvents.default_text (RoomEvents.sm_messageType data))) in
  let lookup := RoomEvents.Query (RoomEvents.SelectUser (socket_userId sock)) in
  let select := RoomEvents.Query
                  (RoomEvents.SelectParticipants conversationId
                                                 (socket_userId sock)) in
  let failed := RoomEvents.Emit sock
                  (RoomEvents.message_error "Failed to send message") in
  after r = st
  /\ effects r =
     match inserted, senderRow, participants with
     | Rejected, _, _ => [insert; failed]
     | Resolved _, Rejected, _ => [insert; lookup; failed]
     | Resolved _, Resolved None, _ => [insert; lookup; failed]
     | Resolved message, Resolved (Some (name, avatar_url)), Rejected =>
         [insert; lookup;
          RoomEvents.ToRoom (RoomEvents.room conversationId)
                            (RoomEvents.new_message message name avatar_url);
          select; failed]
     | Resolved message, Resolved (Some (name, avatar_url)), Resolved rows =>
         insert :: lookup
         :: RoomEvents.ToRoom (RoomEvents.room conversationId)
                              (RoomEvents.new_message message name avatar_url)
         :: select :: RoomEvents.notices st sock data name rows
     end%list.
Proof.
  cbn zeta.
  destruct inserted as [message|]; [|now split].
  destruct senderRow as [[[name avatar_url]|]|]; try (now split).
  destruct participants as [rows|]; [|now split].
  unfold RoomEvents.send_message, RoomEvents.send_message_body, RoomEvents.query,
    try_catch, bind, perform, ret.
  cbn [after effects completion app].
  rewrite for_each_notify_participant. now split.
Qed.


(** X21: every [message_notification] that [send_message] sends goes to a
    socket id that [connectedUsers] holds for one of the participant rows,
    names the sender by the user id of the sending socket, and carries as
    preview the beginning of the message text, 50 UTF-16 code units long or
    as long as the text when that is shorter; so the whole text when it
    has no more than 50 code units. *)
Theorem room_notification_preview_bounded (sock : Socket)
    (data : RoomEvents.SendMessage) (inserted : Settled RoomEvents.MessageRow)
    (senderRow : Settled (option (string * string)))
    (participants : Settled (list Z)) (st : RoomSocketHandler.Server)
    (sid : string) (conversationId senderId : Z) (senderName : string)
    (pv : RoomEvents.Text) :
  In (RoomEvents.EmitTo sid
        (RoomEvents.message_notification conversationId senderId senderName pv))
     (effects (RoomEvents.send_message sock data inserted senderRow
                                       participants st)) ->
  (exists rows user_id,
      participants = Resolved rows /\ In user_id rows
      /\ JsMap.get Z.eqb (RoomSocketHandler.connectedUsers st) user_id = Some sid)
  /\ senderId = socket_userId sock
  /\ length pv = Nat.min 50 (length (RoomEvents.sm_messageText data))
  /\ (exists rest, RoomEvents.sm_messageText data = (pv ++ rest)%list)
  /\ ((length (RoomEvents.sm_messageText data) <= 50)%nat ->
      pv = RoomEvents.sm_messageText data).
Proof.
  destruct (room_send_message_run sock data inserted senderRow participants st)
    as [_ Heff].
  cbn zeta in Heff. rewrite Heff. clear Heff.
  destruct inserted as [message|]; [|intros [H|[H|[]]]; discriminate].
  destruct senderRow as [[[name avatar_url]|]|];
    try (intros [H|[H|[H|[]]]]; discriminate).
  destruct participants as [rows|];
    [|intros [H|[H|[H|[H|[H|[]]]]]]; discriminate].
  intros [H|[H|[H|[H|Hin]]]]; try discriminate.
  unfold RoomEvents.notices in Hin. apply in_flat_map in Hin.
  destruct Hin as (user_id & Hrow & Hin).
  destruct (JsMap.get Z.eqb (RoomSocketHandler.connectedUsers st) user_id)
    as [sid'|] eqn:Hsid; [|destruct Hin].
  destruct Hin as [[= <- <- <- <- <-]|[]].
  split; [now exists rows, user_id|]. split; [reflexivity|].
  unfold RoomEvents.preview. split; [apply length_firstn|]. split.
  - exists (skipn 50 (RoomEvents.sm_messageText data)).
    symmetry. apply firstn_skipn.
  - apply firstn_all2.
Qed.

(** A text of 60 code units, sixty times U+00E9, is cut after 50. *)
Lemma room_notification_preview_bounded_witness :
  let st := after ((RoomSocketHandler.connection ann ok ;;
                    RoomSocketHandler.connection bob ok)
                     RoomSocketHandler.initial) in
  let text := repeat 233%N 60 in
  let pv := repeat 233%N 50 in
  length pv = Nat.min 50 (length text)
  /\ exists rest, text = (pv ++ rest)%list.
Proof.
  intros st text pv.
  pose proof (@room_notification_preview_bounded ann
                (RoomEvents.mkSendMessage 7 text None)
                (Resolved (RoomEvents.mkMessageRow 42 7 1 text "text" false 5000))
                (Resolved (Some ("Ann", "a.png"))) (Resolved [3; 2]) st
                "sock-b" 7 1 "Ann" pv) as H.
  destruct H as (_ & _ & Hlen & Hpre & _).
  - right. right. right. right. left. reflexivity.
  - now split.
Defined.

(** X22: in [RoomSocketHandler] only [connection] and [disconnect] change
    [connectedUsers]: joining and leaving a room, sending a message,
    marking as read, the typing indicators, the ICE relay and the four call
    handlers leave the registry as it was, whatever the database answers. *)
Theorem room_registry_untouched_by_events (sock : Socket)
    (st : RoomSocketHandler.Server) :
  (forall conversationId,
      after (RoomEvents.join_conversation sock conversationId st) = st
      /\ after (RoomEvents.leave_conversation sock conversationId st) = st
      /\ after (RoomEvents.typing_start sock conversationId st) = st
      /\ after (RoomEvents.typing_stop sock conversationId st) = st)
  /\ (forall data inserted senderRow participants,
      after (RoomEvents.send_message sock data inserted senderRow
                                     participants st) = st)
  /\ (forall conversationId messageIds updated,
      after (RoomEvents.mark_as_read sock conversationId messageIds updated st)
      = st)
  /\ (forall receiverId candidate,
      after (RoomEvents.ice_candidate sock receiverId candidate st) = st)
  /\ (forall callId callerId updated,
      after (RoomEvents.reject_call sock callId callerId updated st) = st)
  /\ (forall data inserted callerRow missed,
      after (RoomSocketHandler.initiate_call sock data inserted callerRow
                                             missed st) = st)
  /\ (forall data updated,
      after (RoomSocketHandler.answer_call sock data updated st) = st)
  /\ (forall data selected now updated,
      after (RoomSocketHandler.end_call sock data selected now updated st) = st).
Proof.
  destruct st as [users]. repeat split.
  - intros data inserted senderRow participants.
    apply room_send_message_run.
  - intros conversationId messageIds updated. now destruct updated as [[]|].
  - intros receiverId candidate. run_more.
    now destruct (JsMap.get Z.eqb users receiverId).
  - intros callId callerId updated. destruct updated as [[]|]; [|reflexivity].
    run_more. now destruct (JsMap.get Z.eqb users callerId).
  - intros data inserted callerRow missed.
    destruct inserted as [id|]; [|reflexivity].
    destruct callerRow as [caller|]; [|reflexivity]. run_more.
    destruct (JsMap.get Z.eqb users (RoomSocketHandler.ic_receiverId data)).
    + now destruct caller as [[name avatar_url]|].
    + now destruct missed as [[]|].
  - intros data updated. destruct updated as [[]|]; [|reflexivity].
    run_more. now destruct (JsMap.get Z.eqb users (RoomSocketHandler.ac_callerId data)).
  - intros data selected now updated.
    destruct selected as [rows|]; [|reflexivity]. run_more.
    destruct (RoomSocketHandler.started_at rows);
      (destruct updated as [[]|]; [|reflexivity]); run_more;
      now destruct (JsMap.get Z.eqb users (RoomSocketHandler.ec_receiverId data)).
Qed.

(** ** Calls in [RoomSocketHandler] *)

(** X23: the course of [end_call]. After the SELECT of [started_at], one
    UPDATE is issued: to ['ended'] with the whole seconds since
    [started_at], that is [(now - started_at) / 1000] rounded down, when
    the first row has a [started_at], to ['missed'] otherwise, also when
    no row came back for the call id. When both queries succeed, the
    user named as receiver is sent [call_ended] if connected and then the
    sender is sent [call_ended]; when one is rejected nobody is told
    anything, not even of the failure. *)
Theorem room_end_call_course (sock : Socket) (data : RoomSocketHandler.EndCall)
    (selected : Settled (list (option Z))) (now : Z) (updated : Settled unit)
    (st : RoomSocketHandler.Server) :
  let r := RoomSocketHandler.end_call sock data selected now updated st in
  let callId := RoomSocketHandler.ec_callId data in
  let select := RoomSocketHandler.Query (RoomSocketHandler.SelectStartedAt callId) in
  completion r = Returned tt
  /\ effects r =
     match selected with
     | Rejected => [select]
     | Resolved rows =>
         select
         :: RoomSocketHandler.Query
              match rows with
              | Some startTime :: _ =>
                  RoomSocketHandler.UpdateCallEnded
                    ((now - startTime) / 1000) callId
              | None :: _ | [] =>
                  RoomSocketHandler.UpdateCallStatus "missed" callId
              end
         :: match updated with
            | Rejected => []
            | Resolved _ =>
                match JsMap.get Z.eqb (RoomSocketHandler.connectedUsers st)
                                (RoomSocketHandler.ec_receiverId data) with
                | Some sid =>
                    [RoomSocketHandler.EmitTo sid
                       (RoomSocketHandler.call_ended callId)]
                | None => []
                end
                ++ [RoomSocketHandler.Emit sock
                      (RoomSocketHandler.call_ended callId)]
            end
     end%list.
Proof.
  destruct st as [users]. cbn zeta.
  destruct selected as [rows|]; [|now split]. run_more.
  destruct rows as [|[startTime|] rows]; cbn [RoomSocketHandler.started_at];
    (destruct updated as [[]|]; [|now split]); run_more;
    now destruct (JsMap.get Z.eqb users (RoomSocketHandler.ec_receiverId data)).
Qed.

(** A call answered at 11000 and ended at 48000, with [bob] connected, is
    recorded as ended after 37 seconds and both sides are told. *)
Lemma room_end_call_course_witness :
  let st := after (RoomSocketHandler.connection bob ok RoomSocketHandler.initial) in
  effects (RoomSocketHandler.end_call ann (RoomSocketHandler.mkEndCall 5 2)
             (Resolved [Some 11000; None]) 48000 ok st) =
  [RoomSocketHandler.Query (RoomSocketHandler.SelectStartedAt 5);
   RoomSocketHandler.Query (RoomSocketHandler.UpdateCallEnded 37 5);
   RoomSocketHandler.EmitTo "sock-b" (RoomSocketHandler.call_ended 5);
   RoomSocketHandler.Emit ann (RoomSocketHandler.call_ended 5)].
Proof.
  intros st.
  exact (proj2 (room_end_call_course ann (RoomSocketHandler.mkEndCall 5 2)
                  (Resolved [Some 11000; None]) 48000 ok st)).
Defined.

(** X24: the course of [initiate_call]. The call is first inserted as
    ['calling'] and the id of the row is the call id. With the receiver
    connected and the row of the caller found, the receiver is sent
    [incoming_call] with that id and the offer at the registered socket id,
    and the caller is sent nothing. With the receiver not connected the
    caller is sent [call_failed] and the row is updated to ['missed']. A
    rejected query, or no row for the caller while the receiver is
    connected, sends [call_error] to the caller and leaves the row, if
    inserted, as ['calling']. *)
Theorem room_initiate_call_course (sock : Socket)
    (data : RoomSocketHandler.InitiateCall) (inserted : Settled Z)
    (callerRow : Settled (option (string * string))) (missed : Settled unit)
    (st : RoomSocketHandler.Server) :
  let r := RoomSocketHandler.initiate_call sock data inserted callerRow missed st in
  let userId := socket_userId sock in
  let receiverId := RoomSocketHandler.ic_receiverId data in
  let callType := RoomSocketHandler.ic_callType data in
  let insert := RoomSocketHandler.Query
                  (RoomSocketHandler.InsertCallLog userId receiverId callType
                                                   "calling") in
  let lookup := RoomSocketHandler.Query (RoomSocketHandler.SelectUser userId) in
  let failed := RoomSocketHandler.Emit sock
                  (RoomSocketHandler.call_error "Failed to initiate call") in
  completion r = Returned tt
  /\ effects r =
     match inserted, callerRow with
     | Rejected, _ => [insert; failed]
     | Resolved _, Rejected => [insert; lookup; failed]
     | Resolved callId, Resolved caller =>
         match JsMap.get Z.eqb (RoomSocketHandler.connectedUsers st) receiverId,
               caller with
         | Some sid, Some (name, avatar_url) =>
             [insert; lookup;
              RoomSocketHandler.EmitTo sid
                (RoomSocketHandler.incoming_call callId userId name avatar_url
                   callType (RoomSocketHandler.ic_offer data))]
         | Some _, None => [insert; lookup; failed]
         | None, _ =>
             [insert; lookup;
              RoomSocketHandler.Emit sock
                (RoomSocketHandler.call_failed "User is offline");
              RoomSocketHandler.Query
                (RoomSocketHandler.UpdateCallStatus "missed" callId)]
             ++ match missed with
                | Resolved _ => []
                | Rejected => [failed]
                end
         end
     end%list.
Proof.
  destruct st as [users]. cbn zeta.
  destruct inserted as [callId|]; [|now split].
  destruct callerRow as [caller|]; [|now split]. run_more.
  destruct (JsMap.get Z.eqb users (RoomSocketHandler.ic_receiverId data)).
  - now destruct caller as [[name avatar_url]|].
  - now destruct missed as [[]|].
Qed.

